(** * HubSpot line-items backend: credential lifecycle and dual-strategy retrieval

    A shallow embedding of [backend/app.py].  Parsed JSON is an inductive
    type, Python's dynamic operations on it ([.get], subscript, [in],
    iteration, truthiness) are functions that return a [result], and the
    functions of the backend run in a state-and-exception monad over the
    token store and the log of HTTP requests issued so far.  An HTTP
    exchange always completes with a status and a body; of the logger,
    only what its messages read is kept. *)

From Stdlib Require Import ZArith String List Lia.
From stdpp Require Import base option list strings gmap.

Local Open Scope string_scope.
Local Open Scope list_scope.
Local Open Scope Z_scope.
#[local] Set Warnings "-register-all".

(** ** Parsed JSON values

    What [response.json()] yields.  A dict is kept as the list of its
    items, and [dict_lookup] reads the first binding of a key.  Python's
    [None] is [JNull].  Numbers are integers, seconds included. *)
Inductive json : Type :=
| JNull
| JBool (b : bool)
| JNum (n : Z)
| JStr (s : string)
| JArr (items : list json)
| JObj (fields : list (string * json)).

Fixpoint dict_lookup (k : string) (fields : list (string * json)) : option json :=
  match fields with
  | [] => None
  | (k', v) :: rest => if String.eqb k k' then Some v else dict_lookup k rest
  end.

(** ** Exceptions and results *)
Inductive exn : Type :=
| KeyError | TypeError | AttributeError | OverflowError | JSONDecodeError.

Inductive result (A : Type) : Type :=
| Ok (a : A)
| Raise (e : exn).
Arguments Ok {A} a.
Arguments Raise {A} e.

(** ** Python operations on parsed JSON *)

(** [v.get(k, d)]: only a dict has the method. *)
Definition py_get (v : json) (k : string) (d : json) : result json :=
  match v with
  | JObj fields => Ok (default d (dict_lookup k fields))
  | _ => Raise AttributeError
  end.

(** [v[k]] with a string key [k]. *)
Definition py_getitem (v : json) (k : string) : result json :=
  match v with
  | JObj fields =>
      match dict_lookup k fields with
      | Some x => Ok x
      | None => Raise KeyError
      end
  | _ => Raise TypeError
  end.

Fixpoint str_contains (needle s : string) : bool :=
  if String.prefix needle s then true
  else match s with
       | EmptyString => false
       | String _ s' => str_contains needle s'
       end.

Definition is_str (k : string) (v : json) : bool :=
  match v with
  | JStr s => String.eqb k s
  | _ => false
  end.

(** [k in v] with a string [k]: key membership on a dict, element
    membership on a list, substring test on a string. *)
Definition py_in (k : string) (v : json) : result bool :=
  match v with
  | JObj fields => Ok (bool_decide (is_Some (dict_lookup k fields)))
  | JArr items => Ok (existsb (is_str k) items)
  | JStr s => Ok (str_contains k s)
  | _ => Raise TypeError
  end.

Fixpoint chars (s : string) : list json :=
  match s with
  | EmptyString => []
  | String c s' => JStr (String c EmptyString) :: chars s'
  end.

(** What [for x in v] ranges over: the elements of a list, the keys of a
    dict, the characters of a string. *)
Definition py_iter (v : json) : result (list json) :=
  match v with
  | JArr items => Ok items
  | JObj fields => Ok (map (fun kv => JStr (fst kv)) fields)
  | JStr s => Ok (chars s)
  | _ => Raise TypeError
  end.

(** Truth value of [v] in [if v:] and [if not v:]. *)
Definition py_truthy (v : json) : bool :=
  match v with
  | JNull => false
  | JBool b => b
  | JNum n => negb (n =? 0)
  | JStr s => negb (String.eqb s EmptyString)
  | JArr items => match items with [] => false | _ => true end
  | JObj fields => match fields with [] => false | _ => true end
  end.

(** ** Signatures

    A header value is a string of characters below 256.
    [hmac.compare_digest] takes ASCII strings only and raises [TypeError]
    otherwise.  Its second argument here is a hex digest, which is ASCII,
    so a signature equal to the digest is accepted, and one that differs
    from it is refused when it is ASCII and makes the call raise when it
    is not. *)
Definition is_ascii_char (c : Ascii.ascii) : bool :=
  match c with
  | Ascii.Ascii _ _ _ _ _ _ _ b7 => negb b7
  end.

Fixpoint is_ascii (s : string) : bool :=
  match s with
  | EmptyString => true
  | String c s' => is_ascii_char c && is_ascii s'
  end.

Definition compare_digest (signature hex_digest : string) : result bool :=
  if String.eqb signature hex_digest then Ok true
  else if is_ascii signature then Ok false
  else Raise TypeError.

(** ** Time

    A [datetime] is a number of seconds since 0001-01-01T00:00:00 and lies
    in [0, datetime_max); a [timedelta] is a number of seconds whose day
    count lies within +-999999999. *)
Definition datetime_max : Z := 3652059 * 86400.
Definition timedelta_max_days : Z := 999999999.

Definition timedelta (seconds : json) : result Z :=
  match seconds with
  | JNum n =>
      if (- timedelta_max_days <=? n / 86400) && (n / 86400 <=? timedelta_max_days)
      then Ok n else Raise OverflowError
  | JBool b => Ok (if b then 1 else 0)
  | _ => Raise TypeError
  end.

Definition datetime_add (t d : Z) : result Z :=
  if (0 <=? t + d) && (t + d <? datetime_max) then Ok (t + d)
  else Raise OverflowError.

(** ** HTTP *)
Record response : Type := mkResponse {
  status_code : Z;
  body : option json   (* [None]: the body is not JSON *)
}.

Definition response_json (r : response) : result json :=
  match body r with
  | Some j => Ok j
  | None => Raise JSONDecodeError
  end.

(** The requests the backend issues, by endpoint and interpolated values. *)
Inductive request : Type :=
| TokenRefresh (refresh_token : json)
    (* POST /oauth/v1/token, grant_type=refresh_token *)
| GraphqlQuery (access_token : json) (company_id : string)
    (* POST /crm/v3/objects/companies/graphql *)
| CompanyDeals (access_token : json) (company_id : string)
    (* GET /crm/v3/objects/companies/{company_id}/associations/deals *)
| DealDetails (access_token : json) (deal_id : json)
    (* GET /crm/v3/objects/deals/{deal_id} *)
| DealLineItems (access_token : json) (deal_id : json)
    (* GET /crm/v3/objects/deals/{deal_id}/associations/line_items *)
| LineItemDetails (access_token : json) (line_item_id : json)
    (* GET /crm/v3/objects/line_items/{line_item_id} *).

Definition is_rest_request (r : request) : bool :=
  match r with
  | CompanyDeals _ _ | DealDetails _ _ | DealLineItems _ _
  | LineItemDetails _ _ => true
  | _ => false
  end.

(** ** Credential store *)
Record token_record : Type := mkToken {
  access_token : json;
  refresh_token : json;
  expires_at : Z;
  scope : json
}.

(** ** Canonical records and responses of the endpoint *)
Record LineItem : Type := mkLineItem {
  deal_name : json;
  line_item_name : json;
  quantity : json;
  unit_price : json;
  amount : json
}.

Inductive flask_response : Type :=
| LineItemsJson (company_id : string) (line_items : list LineItem)
    (* 200, {'company_id': ..., 'line_items': ...} *)
| ErrorJson (error : string) (code : Z)
    (* {'error': ...} with the given status *).

Record http_request : Type := mkRequest {
  header_portal_id : option string;   (* X-HubSpot-Portal-Id *)
  header_signature : option string;   (* X-HubSpot-Signature-V3 *)
  request_data : string
}.

(** ** The world outside the process

    [server h r] is the reply to request [r] when the requests [h] were
    issued before it; [clock h] is what [datetime.now()] reads at that
    point. *)
Record env : Type := mkEnv {
  server : list request -> request -> response;
  clock : list request -> Z;
  hmac_sha256_hex : string -> string -> string;
  webhook_secret : string   (* HUBSPOT_WEBHOOK_SECRET, '' when unset *)
}.

Record state : Type := mkState {
  token_storage : gmap string token_record;
  calls : list request
}.

(** ** State and exception monad *)
Definition M (A : Type) : Type := state -> result A * state.

#[global] Instance M_ret : MRet M := fun A a s => (Ok a, s).

#[global] Instance M_bind : MBind M := fun A B f m s =>
  match m s with
  | (Ok a, s') => f a s'
  | (Raise e, s') => (Raise e, s')
  end.

Definition lift {A} (r : result A) : M A := fun s => (r, s).

Definition try_except {A} (m : M A) (handler : exn -> M A) : M A :=
  fun s =>
    match m s with
    | (Ok a, s') => (Ok a, s')
    | (Raise e, s') => handler e s'
    end.

#[global] Instance result_ret : MRet result := fun A a => Ok a.

#[global] Instance result_bind : MBind result := fun A B f r =>
  match r with
  | Ok a => f a
  | Raise e => Raise e
  end.

(** Requests issued between two states. *)
Definition new_calls (s s' : state) : list request :=
  drop (length (calls s)) (calls s').

Section Backend.

Variable E : env.

Definition datetime_now : M Z := fun s => (Ok (clock E (calls s)), s).

Definition requests_call (r : request) : M response :=
  fun s =>
    (Ok (server E (calls s) r),
     {| token_storage := token_storage s; calls := calls s ++ [r] |}).

Definition storage_get (portal_id : string) : M (option token_record) :=
  fun s => (Ok (token_storage s !! portal_id), s).

Definition storage_set (portal_id : string) (t : token_record) : M unit :=
  fun s =>
    (Ok tt,
     {| token_storage := <[portal_id := t]> (token_storage s);
        calls := calls s |}).

(** ** Token lifecycle *)

Definition refresh_access_token (portal_id : string) (refresh_tok : json)
  : M json :=
  resp ← requests_call (TokenRefresh refresh_tok);
  if status_code resp =? 200 then
    token_data ← lift (response_json resp);
    new_access ← lift (py_getitem token_data "access_token");
    new_refresh ← lift (py_get token_data "refresh_token" refresh_tok);
    now ← datetime_now;
    expires_in ← lift (py_getitem token_data "expires_in");
    delta ← lift (timedelta expires_in);
    new_expiry ← lift (datetime_add now delta);
    new_scope ← lift (py_get token_data "scope" (JStr EmptyString));
    storage_set portal_id
      {| access_token := new_access; refresh_token := new_refresh;
         expires_at := new_expiry; scope := new_scope |};;
    mret new_access
  else
    mret JNull.

Definition get_hubspot_access_token (portal_id : string) : M json :=
  token_data ← storage_get portal_id;
  match token_data with
  | None => mret JNull
  | Some t =>
      now ← datetime_now;
      if now >? expires_at t then
        if py_truthy (refresh_token t)
        then refresh_access_token portal_id (refresh_token t)
        else mret JNull
      else mret (access_token t)
  end.

(** ** Line-item retrieval *)

(** Structured-query strategy: the record appended at lines 250-257. *)
Definition graphql_record (dname : json) (line_item : json)
  : result LineItem :=
  props ← py_get line_item "properties" (JObj []);
  name ← py_get props "name" (JStr "Unknown Item");
  qty ← py_get props "quantity" (JNum 0);
  price ← py_get props "price" (JNum 0);
  amt ← py_get props "amount" (JNum 0);
  mret (mkLineItem dname name qty price amt).

Fixpoint graphql_items_loop (dname : json) (line_items_data : list json)
    (line_items : list LineItem) : result (list LineItem) :=
  match line_items_data with
  | [] => mret line_items
  | line_item :: rest =>
      r ← graphql_record dname line_item;
      graphql_items_loop dname rest (line_items ++ [r])
  end.

Definition graphql_deal_name (deal : json) : result json :=
  props ← py_get deal "properties" (JObj []);
  py_get props "dealname" (JStr "Unknown Deal").

Definition graphql_deal_items (deal : json) : result (list json) :=
  assoc ← py_get deal "associations" (JObj []);
  li ← py_get assoc "lineItems" (JObj []);
  items ← py_get li "items" (JArr []);
  py_iter items.

Fixpoint graphql_deals_loop (deals : list json) (line_items : list LineItem)
  : result (list LineItem) :=
  match deals with
  | [] => mret line_items
  | deal :: rest =>
      dname ← graphql_deal_name deal;
      line_items_data ← graphql_deal_items deal;
      line_items' ← graphql_items_loop dname line_items_data line_items;
      graphql_deals_loop rest line_items'
  end.

Definition graphql_deals (data : json) : result (list json) :=
  d ← py_get data "data" (JObj []);
  crm ← py_get d "CRM" (JObj []);
  company_data ← py_get crm "company" (JObj []);
  assoc ← py_get company_data "associations" (JObj []);
  deals ← py_get assoc "deals" (JObj []);
  items ← py_get deals "items" (JArr []);
  py_iter items.

(** [None] is the function's [None]: the strategy is inconclusive. *)
Definition get_company_line_items_graphql (access_tok : json)
    (company_id : string) : M (option (list LineItem)) :=
  resp ← requests_call (GraphqlQuery access_tok company_id);
  if negb (status_code resp =? 200) then mret None
  else
    data ← lift (response_json resp);
    has_errors ← lift (py_in "errors" data);
    if (has_errors : bool) then
      lift (py_getitem data "errors");;   (* read by the log message *)
      mret None
    else
      deals ← lift (graphql_deals data);
      line_items ← lift (graphql_deals_loop deals []);
      mret (Some line_items).

(** REST traversal: the record appended at lines 313-321. *)
Definition rest_record (dname : json) (line_item_data : json)
  : result LineItem :=
  props ← py_get line_item_data "properties" (JObj []);
  name ← py_get props "name" (JStr "Unknown Item");
  qty ← py_get props "quantity" (JNum 0);
  price ← py_get props "price" (JNum 0);
  amt ← py_get props "amount" (JNum 0);
  mret (mkLineItem dname name qty price amt).

Fixpoint rest_items_loop (access_tok : json) (dname : json)
    (associations : list json) (line_items : list LineItem)
  : M (list LineItem) :=
  match associations with
  | [] => mret line_items
  | line_item_association :: rest =>
      line_item_id ← lift (py_getitem line_item_association "id");
      resp ← requests_call (LineItemDetails access_tok line_item_id);
      if negb (status_code resp =? 200)
      then rest_items_loop access_tok dname rest line_items
      else
        line_item_data ← lift (response_json resp);
        r ← lift (rest_record dname line_item_data);
        rest_items_loop access_tok dname rest (line_items ++ [r])
  end.

Definition rest_deal_name (deal_data : json) : result json :=
  props ← py_get deal_data "properties" (JObj []);
  py_get props "dealname" (JStr "Unknown Deal").

Definition rest_results (data : json) : result (list json) :=
  results ← py_get data "results" (JArr []);
  py_iter results.

Fixpoint rest_deals_loop (access_tok : json) (associations : list json)
    (line_items : list LineItem) : M (list LineItem) :=
  match associations with
  | [] => mret line_items
  | deal_association :: rest =>
      deal_id ← lift (py_getitem deal_association "id");
      deal_response ← requests_call (DealDetails access_tok deal_id);
      if negb (status_code deal_response =? 200)
      then rest_deals_loop access_tok rest line_items
      else
        deal_data ← lift (response_json deal_response);
        dname ← lift (rest_deal_name deal_data);
        line_items_response ← requests_call (DealLineItems access_tok deal_id);
        if negb (status_code line_items_response =? 200)
        then rest_deals_loop access_tok rest line_items
        else
          line_items_data ← lift (response_json line_items_response);
          item_associations ← lift (rest_results line_items_data);
          line_items' ← rest_items_loop access_tok dname
                          item_associations line_items;
          rest_deals_loop access_tok rest line_items'
  end.

Definition get_company_line_items_rest (access_tok : json)
    (company_id : string) : M (list LineItem) :=
  deals_response ← requests_call (CompanyDeals access_tok company_id);
  if negb (status_code deals_response =? 200) then mret []
  else
    deals_data ← lift (response_json deals_response);
    deal_associations ← lift (rest_results deals_data);
    rest_deals_loop access_tok deal_associations [].

(** The [try] block of [get_company_line_items] with its [except]. *)
Definition fetch_line_items (access_tok : json) (company_id : string)
  : M flask_response :=
  try_except
    (line_items ← get_company_line_items_graphql access_tok company_id;
     line_items' ← match line_items with
                   | None => get_company_line_items_rest access_tok company_id
                   | Some l => mret l
                   end;
     mret (LineItemsJson company_id line_items'))
    (fun _ => mret (ErrorJson "Failed to fetch line items" 500)).

Definition verify_hubspot_signature (payload signature secret : string)
  : result bool :=
  if String.eqb signature EmptyString || String.eqb secret EmptyString
  then Ok false
  else compare_digest signature (hmac_sha256_hex E secret payload).

Definition get_company_line_items (company_id : string) (req : http_request)
  : M flask_response :=
  match header_portal_id req with
  | None => mret (ErrorJson "Portal ID not provided" 400)
  | Some portal_id =>
      if String.eqb portal_id EmptyString then
        mret (ErrorJson "Portal ID not provided" 400)
      else
        invalid ← match header_signature req with
                  | Some signature =>
                      if String.eqb signature EmptyString then mret false
                      else
                        valid ← lift (verify_hubspot_signature
                                        (request_data req) signature
                                        (webhook_secret E));
                        mret (negb valid)
                  | None => mret false
                  end;
        if (invalid : bool) then mret (ErrorJson "Invalid signature" 401)
        else
          access_tok ← get_hubspot_access_token portal_id;
          if negb (py_truthy access_tok) then
            mret (ErrorJson "No valid access token found" 401)
          else fetch_line_items access_tok company_id
  end.

End Backend.

(** ** Scenarios *)

Definition ok_response (j : json) : response :=
  {| status_code := 200; body := Some j |}.

Definition failed_response (code : Z) : response :=
  {| status_code := code; body := None |}.

(** An upstream that gives the same reply to every call at a fixed time. *)
Definition fixed_env (reply : response) (now : Z) : env :=
  {| server := fun _ _ => reply; clock := fun _ => now;
     hmac_sha256_hex := fun _ _ => EmptyString; webhook_secret := EmptyString |}.

Definition now0 : Z := 63900000000.

Definition stale_record : token_record :=
  {| access_token := JStr "a1"; refresh_token := JStr "r1";
     expires_at := now0 - 10; scope := JStr EmptyString |}.

Definition fresh_record : token_record :=
  {| access_token := JStr "a1"; refresh_token := JStr "r1";
     expires_at := now0 + 10; scope := JStr EmptyString |}.

Definition store_of (t : token_record) : state :=
  {| token_storage := {["42" := t]}; calls := [] |}.

Definition empty_store : state :=
  {| token_storage := ∅; calls := [] |}.

Definition refresh_reply : response :=
  ok_response (JObj [("access_token", JStr "a2"); ("expires_in", JNum 3600)]).

Definition rejecting_env : env := fixed_env (failed_response 400) now0.

Definition refreshing_env : env := fixed_env refresh_reply now0.

Definition plain_request : http_request :=
  {| header_portal_id := Some "42"; header_signature := None;
     request_data := EmptyString |}.



(** The fallback as [fetch_line_items] runs it: the REST traversal inside
    the [try] block. *)
Definition rest_fallback (E : env) (access_tok : json) (company_id : string)
  : M flask_response :=
  try_except
    (line_items ← get_company_line_items_rest E access_tok company_id;
     mret (LineItemsJson company_id line_items))
    (fun _ => mret (ErrorJson "Failed to fetch line items" 500)).

(** [path] leads, through nested objects of [v], to a member that is absent. *)
Fixpoint absent_along (path : list string) (v : json) : bool :=
  match path, v with
  | k :: rest, JObj fields =>
      match dict_lookup k fields with
      | None => true
      | Some v' => absent_along rest v'
      end
  | _, _ => false
  end.

Definition deals_path : list string :=
  ["data"; "CRM"; "company"; "associations"; "deals"; "items"].

(** The state after the requests [qs] have been issued from [s]. *)
Definition sent (s : state) (qs : list request) : state :=
  {| token_storage := token_storage s; calls := calls s ++ qs |}.

(** [out] was reached from [s] by REST requests only, the token store
    left alone. *)
Definition rest_frame {A} (s : state) (out : result A * state) : Prop :=
  exists new,
    token_storage (snd out) = token_storage s /\
    calls (snd out) = calls s ++ new /\
    forallb is_rest_request new = true.

(** [r] gets the reply [resp] whatever was requested before. *)
Definition replies (E : env) (r : request) (resp : response) : Prop :=
  forall h, server E h r = resp.

(** Upstream data, and its two presentations: the nested body of the
    structured query, and the resources the REST endpoints serve. *)
Record upstream_item : Type := mkItem {
  item_id : json;
  item_properties : option json   (* the [properties] member, if any *)
}.

Record upstream_deal : Type := mkDeal {
  deal_id : json;
  deal_properties : option json;
  deal_items : list upstream_item
}.

Definition member (k : string) (v : option json) : list (string * json) :=
  match v with
  | Some x => [(k, x)]
  | None => []
  end.

Definition association (id : json) : json := JObj [("id", id)].

Definition item_resource (i : upstream_item) : json :=
  JObj (("id", item_id i) :: member "properties" (item_properties i)).

Definition deal_resource (d : upstream_deal) : json :=
  JObj (("id", deal_id d) :: member "properties" (deal_properties d)).

Definition deal_node (d : upstream_deal) : json :=
  JObj (("id", deal_id d) :: member "properties" (deal_properties d) ++
        [("associations",
          JObj [("lineItems",
                 JObj [("items", JArr (map item_resource (deal_items d)))])])]).

Definition graphql_body (deals : list upstream_deal) : json :=
  JObj [("data",
         JObj [("CRM",
                JObj [("company",
                       JObj [("associations",
                              JObj [("deals",
                                     JObj [("items",
                                            JArr (map deal_node deals))])])])])])].

Definition rest_serves (E : env) (tok : json) (cid : string)
    (deals : list upstream_deal) : Prop :=
  replies E (CompanyDeals tok cid)
    (ok_response
       (JObj [("results", JArr (map (fun d => association (deal_id d)) deals))]))
  /\
  forall d, In d deals ->
    replies E (DealDetails tok (deal_id d)) (ok_response (deal_resource d)) /\
    replies E (DealLineItems tok (deal_id d))
      (ok_response
         (JObj [("results",
                 JArr (map (fun i => association (item_id i)) (deal_items d)))]))
    /\
    forall i, In i (deal_items d) ->
      replies E (LineItemDetails tok (item_id i))
        (ok_response (item_resource i)).

(** The outcome of the fallback, seen as an outcome of the structured
    query. *)
Definition as_conclusive (r : result (list LineItem))
  : result (option (list LineItem)) :=
  match r with
  | Ok l => Ok (Some l)
  | Raise e => Raise e
  end.

(** A CRM with the deals "A" and "B": the line items of "A" cannot be
    listed, "B" has the line item "L1"; no structured-query endpoint. *)
Definition crm_server (h : list request) (r : request) : response :=
  match r with
  | CompanyDeals _ _ =>
      ok_response
        (JObj [("results", JArr [JObj [("id", JStr "A")];
                                 JObj [("id", JStr "B")]])])
  | DealDetails _ (JStr id) =>
      if String.eqb id "A" then
        ok_response (JObj [("id", JStr "A");
                           ("properties", JObj [("dealname", JStr "Deal A")])])
      else if String.eqb id "B" then
        ok_response (JObj [("id", JStr "B");
                           ("properties", JObj [("dealname", JStr "Deal B")])])
      else failed_response 404
  | DealLineItems _ (JStr id) =>
      if String.eqb id "A" then failed_response 500
      else if String.eqb id "B" then
        ok_response (JObj [("results", JArr [JObj [("id", JStr "L1")]])])
      else failed_response 404
  | LineItemDetails _ (JStr id) =>
      if String.eqb id "L1" then
        ok_response
          (JObj [("id", JStr "L1");
                 ("properties", JObj [("name", JStr "Widget");
                                      ("quantity", JStr "2");
                                      ("price", JStr "10.00");
                                      ("amount", JStr "20.00")])])
      else failed_response 404
  | _ => failed_response 404
  end.

Definition crm_env : env :=
  {| server := crm_server; clock := fun _ => now0;
     hmac_sha256_hex := fun _ _ => EmptyString; webhook_secret := EmptyString |}.

Definition widget_record : LineItem :=
  {| deal_name := JStr "Deal B"; line_item_name := JStr "Widget";
     quantity := JStr "2"; unit_price := JStr "10.00";
     amount := JStr "20.00" |}.

(** A catalog served alike by the structured query and by REST: "D1"
    with a name and two line items, the first lacking price and amount,
    the second lacking its properties; "D2" with nothing. *)
Definition seat_item : upstream_item :=
  {| item_id := JStr "I1";
     item_properties :=
       Some (JObj [("name", JStr "Seat"); ("quantity", JNum 3)]) |}.

Definition bare_item : upstream_item :=
  {| item_id := JStr "I2"; item_properties := None |}.

Definition renewal_deal : upstream_deal :=
  {| deal_id := JStr "D1";
     deal_properties := Some (JObj [("dealname", JStr "Renewal")]);
     deal_items := [seat_item; bare_item] |}.

Definition unnamed_deal : upstream_deal :=
  {| deal_id := JStr "D2"; deal_properties := None; deal_items := [] |}.

Definition catalog : list upstream_deal := [renewal_deal; unnamed_deal].

Definition listing {A} (id : A -> json) (l : list A) : response :=
  ok_response (JObj [("results", JArr (map (fun x => association (id x)) l))]).

Definition catalog_server (h : list request) (r : request) : response :=
  match r with
  | GraphqlQuery _ _ => ok_response (graphql_body catalog)
  | CompanyDeals _ _ => listing deal_id catalog
  | DealDetails _ (JStr id) =>
      if String.eqb id "D1" then ok_response (deal_resource renewal_deal)
      else if String.eqb id "D2" then ok_response (deal_resource unnamed_deal)
      else failed_response 404
  | DealLineItems _ (JStr id) =>
      if String.eqb id "D1" then listing item_id (deal_items renewal_deal)
      else if String.eqb id "D2" then listing item_id (deal_items unnamed_deal)
      else failed_response 404
  | LineItemDetails _ (JStr id) =>
      if String.eqb id "I1" then ok_response (item_resource seat_item)
      else if String.eqb id "I2" then ok_response (item_resource bare_item)
      else failed_response 404
  | _ => failed_response 404
  end.

Definition catalog_env : env :=
  {| server := catalog_server; clock := fun _ => now0;
     hmac_sha256_hex := fun _ _ => EmptyString; webhook_secret := EmptyString |}.

Definition catalog_records : list LineItem :=
  [ {| deal_name := JStr "Renewal"; line_item_name := JStr "Seat";
       quantity := JNum 3; unit_price := JNum 0; amount := JNum 0 |};
    {| deal_name := JStr "Renewal"; line_item_name := JStr "Unknown Item";
       quantity := JNum 0; unit_price := JNum 0; amount := JNum 0 |} ].

(** A structured-query endpoint answering 200 with a body that stops at
    the [CRM] object. *)
Definition no_company_env : env :=
  fixed_env (ok_response (JObj [("data", JObj [("CRM", JObj [])])])) now0.

(** A structured-query endpoint answering 200 with an empty object. *)
Definition empty_object_env : env := fixed_env (ok_response (JObj [])) now0.

(** A structured-query endpoint answering 200 with [{"data": null}]. *)
Definition null_data_env : env :=
  fixed_env (ok_response (JObj [("data", JNull)])) now0.


(** ** Further scenarios *)

(** A refresh reply that carries [refresh_token: null]. *)
Definition null_refresh_reply : response :=
  ok_response (JObj [("access_token", JStr "a2"); ("refresh_token", JNull);
                     ("expires_in", JNum 3600)]).

Definition nulling_env : env := fixed_env null_refresh_reply now0.

(** The portals "42", expired, and "7", still valid. *)
Definition two_portal_store : state :=
  {| token_storage := <["7" := fresh_record]> {["42" := stale_record]};
     calls := [] |}.


(** The request names the portal [p]. *)
Definition names_portal (req : http_request) (p : string) : Prop :=
  header_portal_id req = Some p /\ p <> EmptyString.

(** The request carries a signature that the endpoint refuses: the
    webhook secret is empty, or the signature is not the digest of the
    request data. *)
Definition signature_rejected (E : env) (req : http_request) : Prop :=
  exists sig,
    header_signature req = Some sig /\
    sig <> EmptyString /\
    (webhook_secret E = EmptyString \/
     sig <> hmac_sha256_hex E (webhook_secret E) (request_data req)).

(** The two ways in which a signature is not accepted: it is refused
    (the webhook secret is empty, or the signature is an ASCII string
    other than the digest) or the comparison raises (a non-ASCII
    signature other than the digest, the secret being set). *)
Definition signature_refused (E : env) (req : http_request) : Prop :=
  exists sig,
    header_signature req = Some sig /\
    sig <> EmptyString /\
    (webhook_secret E = EmptyString \/
     (sig <> hmac_sha256_hex E (webhook_secret E) (request_data req) /\
      is_ascii sig = true)).

Definition signature_raises (E : env) (req : http_request) : Prop :=
  exists sig,
    header_signature req = Some sig /\
    sig <> EmptyString /\
    webhook_secret E <> EmptyString /\
    sig <> hmac_sha256_hex E (webhook_secret E) (request_data req) /\
    is_ascii sig = false.

(** The endpoint after the header checks. *)
Definition after_checks (E : env) (cid : string) (p : string) (s : state)
  : result flask_response * state :=
  match get_hubspot_access_token E p s with
  | (Ok tok, s1) =>
      if py_truthy tok then fetch_line_items E tok cid s1
      else (Ok (ErrorJson "No valid access token found" 401), s1)
  | (Raise e, s1) => (Raise e, s1)
  end.

(** The environment [E] with another digest function and webhook secret. *)
Definition with_signing (E : env) (digest : string -> string -> string)
    (secret : string) : env :=
  {| server := server E; clock := clock E;
     hmac_sha256_hex := digest; webhook_secret := secret |}.


Definition falsy_token_record : token_record :=
  {| access_token := JStr EmptyString; refresh_token := JStr "r1";
     expires_at := now0 + 10; scope := JStr EmptyString |}.


(** The request is a CRM request that carries the access token [tok]. *)
Definition carries (tok : json) (r : request) : Prop :=
  match r with
  | GraphqlQuery t _ | CompanyDeals t _ | DealDetails t _
  | DealLineItems t _ | LineItemDetails t _ => t = tok
  | TokenRefresh _ => False
  end.

(** [out] was reached from [s] by REST requests that carry [tok]. *)
Definition rest_frame_for {A} (tok : json) (s : state)
    (out : result A * state) : Prop :=
  exists new,
    snd out = sent s new /\
    Forall (fun r => is_rest_request r = true /\ carries tok r) new.

(** [path] leads, through nested objects of [v], to a value that is
    looked into but is not an object. *)
Fixpoint hits_non_object (path : list string) (v : json) : bool :=
  match path with
  | [] => false
  | k :: rest =>
      match v with
      | JObj fields =>
          match dict_lookup k fields with
          | Some v' => hits_non_object rest v'
          | None => false
          end
      | _ => true
      end
  end.

(** The shapes of a body for which [in] finds "errors". *)
Inductive mentions_errors : json -> Prop :=
| errors_member (fields : list (string * json)) (v : json) :
    dict_lookup "errors" fields = Some v ->
    mentions_errors (JObj fields)
| errors_element (items : list json) :
    In (JStr "errors") items ->
    mentions_errors (JArr items)
| errors_substring (before after : string) :
    mentions_errors (JStr (before ++ "errors" ++ after)%string).

(** Upstream data whose [properties] members, where present, are objects,
    and the records, in order, that it stands for. *)
Definition properties_ok (p : option json) : bool :=
  match p with
  | None | Some (JObj _) => true
  | Some _ => false
  end.

Definition properties_fields (p : option json) : list (string * json) :=
  match p with
  | Some (JObj fields) => fields
  | _ => []
  end.

Definition well_formed (deals : list upstream_deal) : Prop :=
  Forall (fun d =>
            properties_ok (deal_properties d) = true /\
            Forall (fun i => properties_ok (item_properties i) = true)
              (deal_items d)) deals.

Definition canonical_deal_name (d : upstream_deal) : json :=
  default (JStr "Unknown Deal")
    (dict_lookup "dealname" (properties_fields (deal_properties d))).

Definition canonical_record (dname : json) (i : upstream_item) : LineItem :=
  {| deal_name := dname;
     line_item_name :=
       default (JStr "Unknown Item")
         (dict_lookup "name" (properties_fields (item_properties i)));
     quantity :=
       default (JNum 0)
         (dict_lookup "quantity" (properties_fields (item_properties i)));
     unit_price :=
       default (JNum 0)
         (dict_lookup "price" (properties_fields (item_properties i)));
     amount :=
       default (JNum 0)
         (dict_lookup "amount" (properties_fields (item_properties i))) |}.

Definition canonical_records (deals : list upstream_deal) : list LineItem :=
  flat_map (fun d => map (canonical_record (canonical_deal_name d))
                       (deal_items d)) deals.

(** The requests of the REST traversal of [deals], in order. *)
Definition deal_trace (tok : json) (d : upstream_deal) : list request :=
  DealDetails tok (deal_id d) :: DealLineItems tok (deal_id d) ::
  map (fun i => LineItemDetails tok (item_id i)) (deal_items d).

Definition rest_trace (tok : json) (cid : string)
    (deals : list upstream_deal) : list request :=
  CompanyDeals tok cid :: flat_map (deal_trace tok) deals.

(** A structured-query endpoint that answers 200 with data and an empty
    error list. *)
Definition empty_errors_env : env :=
  fixed_env
    (ok_response
       (JObj [("data", graphql_body catalog); ("errors", JArr [])])) now0.


(** ** The OAuth callback

    [oauth_callback] stores its record under [portal_data['hub_id']],
    which may be any hashable value of the reply, so here the token store
    is a dict over such keys: [by_str] is the part under string keys, the
    [token_storage] that the endpoint reads with the portal header.  The
    callback's own requests have their own log. *)
Inductive portal_key : Type :=
| KeyNone
| KeyInt (n : Z)
| KeyStr (s : string).

(** The dict key a value stands for; [True] and [False] are the keys 1
    and 0, and lists and dicts are unhashable. *)
Definition py_hash (v : json) : result portal_key :=
  match v with
  | JNull => Ok KeyNone
  | JBool b => Ok (KeyInt (if b then 1 else 0))
  | JNum n => Ok (KeyInt n)
  | JStr s => Ok (KeyStr s)
  | JArr _ | JObj _ => Raise TypeError
  end.

Record token_dict : Type := mkTokenDict {
  by_str : gmap string token_record;
  by_int : gmap Z token_record;
  by_none : option token_record
}.

Definition dict_get (k : portal_key) (d : token_dict) : option token_record :=
  match k with
  | KeyNone => by_none d
  | KeyInt n => by_int d !! n
  | KeyStr s => by_str d !! s
  end.

Definition dict_set (k : portal_key) (t : token_record) (d : token_dict)
  : token_dict :=
  match k with
  | KeyNone => {| by_str := by_str d; by_int := by_int d; by_none := Some t |}
  | KeyInt n =>
      {| by_str := by_str d; by_int := <[n := t]> (by_int d);
         by_none := by_none d |}
  | KeyStr s =>
      {| by_str := <[s := t]> (by_str d); by_int := by_int d;
         by_none := by_none d |}
  end.

Inductive oauth_request : Type :=
| CodeExchange (code : string)
    (* POST /oauth/v1/token, grant_type=authorization_code *)
| AccessTokenInfo (access_tok : string)
    (* GET /oauth/v1/access-tokens/{access_token} *).

Inductive oauth_response : Type :=
| OAuthSuccessful (portal_id : json) (access_tok : json)
    (* 200, {'message': 'OAuth successful', 'portal_id': ..., 'access_token': ...} *)
| OAuthError (error : string) (code : Z).

Record oauth_env : Type := mkOAuthEnv {
  oauth_server : list oauth_request -> oauth_request -> response;
  oauth_clock : list oauth_request -> Z
}.

Record oauth_state : Type := mkOAuthState {
  storage : token_dict;
  oauth_calls : list oauth_request
}.

Definition OM (A : Type) : Type := oauth_state -> result A * oauth_state.

#[global] Instance OM_ret : MRet OM := fun A a s => (Ok a, s).

#[global] Instance OM_bind : MBind OM := fun A B f m s =>
  match m s with
  | (Ok a, s') => f a s'
  | (Raise e, s') => (Raise e, s')
  end.

Definition olift {A} (r : result A) : OM A := fun s => (r, s).

(** The right operand of [+] on a string: it must be a string. *)
Definition py_str_operand (v : json) : result string :=
  match v with
  | JStr s => Ok s
  | _ => Raise TypeError
  end.

(** The state after the callback has issued the requests [qs] from [s]. *)
Definition oauth_sent (s : oauth_state) (qs : list oauth_request)
  : oauth_state :=
  {| storage := storage s; oauth_calls := oauth_calls s ++ qs |}.

Section Callback.

Variable O : oauth_env.

Definition oauth_now : OM Z :=
  fun s => (Ok (oauth_clock O (oauth_calls s)), s).

Definition oauth_call (r : oauth_request) : OM response :=
  fun s =>
    (Ok (oauth_server O (oauth_calls s) r),
     {| storage := storage s; oauth_calls := oauth_calls s ++ [r] |}).

Definition storage_put (k : portal_key) (t : token_record) : OM unit :=
  fun s =>
    (Ok tt,
     {| storage := dict_set k t (storage s); oauth_calls := oauth_calls s |}).

(** [code] is [request.args.get('code')]. *)
Definition oauth_callback (code : option string) : OM oauth_response :=
  match code with
  | None => mret (OAuthError "No authorization code provided" 400)
  | Some code =>
      if String.eqb code EmptyString then
        mret (OAuthError "No authorization code provided" 400)
      else
        resp ← oauth_call (CodeExchange code);
        if negb (status_code resp =? 200) then
          mret (OAuthError "Failed to exchange code for tokens" 400)
        else
          token_data ← olift (response_json resp);
          access ← olift (py_getitem token_data "access_token");
          access_str ← olift (py_str_operand access);
          portal_response ← oauth_call (AccessTokenInfo access_str);
          if negb (status_code portal_response =? 200) then
            mret (OAuthError "Failed to get portal information" 400)
          else
            portal_data ← olift (response_json portal_response);
            portal_id ← olift (py_getitem portal_data "hub_id");
            new_refresh ← olift (py_get token_data "refresh_token" JNull);
            now ← oauth_now;
            expires_in ← olift (py_getitem token_data "expires_in");
            delta ← olift (timedelta expires_in);
            new_expiry ← olift (datetime_add now delta);
            new_scope ← olift (py_get token_data "scope" (JStr EmptyString));
            key ← olift (py_hash portal_id);
            storage_put key
              {| access_token := access; refresh_token := new_refresh;
                 expires_at := new_expiry; scope := new_scope |};;
            mret (OAuthSuccessful portal_id access)
  end.

End Callback.

(** An OAuth upstream that exchanges any code for the token "a1" and
    names the portal by the value [hub]. *)
Definition oauth_upstream (hub : json) (h : list oauth_request)
    (r : oauth_request) : response :=
  match r with
  | CodeExchange _ =>
      ok_response (JObj [("access_token", JStr "a1");
                         ("expires_in", JNum 1800)])
  | AccessTokenInfo _ => ok_response (JObj [("hub_id", hub)])
  end.

Definition oauth_env_for (hub : json) : oauth_env :=
  {| oauth_server := oauth_upstream hub; oauth_clock := fun _ => now0 |}.

Definition refusing_oauth_env : oauth_env :=
  {| oauth_server := fun _ _ => failed_response 400;
     oauth_clock := fun _ => now0 |}.

Definition empty_dict : token_dict :=
  {| by_str := ∅; by_int := ∅; by_none := None |}.

Definition fresh_oauth_state : oauth_state :=
  {| storage := empty_dict; oauth_calls := [] |}.

Definition acquired_record : token_record :=
  {| access_token := JStr "a1"; refresh_token := JNull;
     expires_at := now0 + 1800; scope := JStr EmptyString |}.


(** An OAuth upstream that exchanges the code and then refuses the
    introspection. *)
Definition introspection_failing_env : oauth_env :=
  {| oauth_server := fun _ r =>
       match r with
       | CodeExchange _ =>
           ok_response (JObj [("access_token", JStr "a1");
                              ("expires_in", JNum 1800)])
       | AccessTokenInfo _ => failed_response 404
       end;
     oauth_clock := fun _ => now0 |}.






(** The bodies of a 200 reply that the structured query cannot read, with
    the exception each one raises. *)
Definition is_scalar (v : json) : bool :=
  match v with
  | JNull | JBool _ | JNum _ => true
  | _ => false
  end.

Inductive unreadable : option json -> exn -> Prop :=
| not_json : unreadable None JSONDecodeError
| scalar_body (data : json) :
    is_scalar data = true ->
    unreadable (Some data) TypeError
| blocked_container (data : json) :
    py_in "errors" data = Ok false ->
    hits_non_object deals_path data = true ->
    unreadable (Some data) AttributeError.

(** Structured-query endpoints answering 200 with the body ["errors"],
    and with the body [null]. *)
Definition errors_list_env : env :=
  fixed_env (ok_response (JArr [JStr "errors"])) now0.

Definition null_body_env : env := fixed_env (ok_response JNull) now0.


(** The refresh scenario with a clock that advances ten minutes with
    every request. *)
Definition ticking_env : env :=
  {| server := fun _ _ => refresh_reply;
     clock := fun h => now0 + 600 * Z.of_nat (length h);
     hmac_sha256_hex := fun _ _ => EmptyString;
     webhook_secret := EmptyString |}.

(** * Theorems *)

Ltac unfold_monad :=
  unfold mbind, M_bind, mret, M_ret, lift, result_bind, result_ret,
    datetime_now, requests_call, storage_get, storage_set, try_except.

#[local] Arguments timedelta : simpl never.
#[local] Arguments datetime_add : simpl never.
#[local] Arguments graphql_deals : simpl never.

Section TokenLifecycle.

Variable E : env.

(** C5: a stored credential with [now <= expires_at] is returned as it is,
    with no request issued and the whole store left as it was. *)
Theorem valid_token_is_returned_without_network
    (s : state) (portal_id : string) (t : token_record) :
  token_storage s !! portal_id = Some t ->
  clock E (calls s) <= expires_at t ->
  get_hubspot_access_token E portal_id s = (Ok (access_token t), s).
Proof.
  intros Hget Hnow. unfold get_hubspot_access_token. unfold_monad.
  rewrite Hget. destruct (Z.gtb_spec (clock E (calls s)) (expires_at t)); [lia|].
  reflexivity.
Qed.

Lemma refresh_rejected (s : state) (portal_id : string) (rt : json) :
  status_code (server E (calls s) (TokenRefresh rt)) <> 200 ->
  refresh_access_token E portal_id rt s =
    (Ok JNull,
     sent s [TokenRefresh rt]).
Proof.
  intros Hst. unfold refresh_access_token. unfold_monad.
  destruct (Z.eqb_spec (status_code (server E (calls s) (TokenRefresh rt))) 200);
    [contradiction | reflexivity].
Qed.

(** C10: when the token endpoint answers with a status other than 200,
    [refresh_access_token] returns [None] and [token_storage] is exactly
    what it was, the stale record and its refresh token included. *)
Theorem failed_refresh_leaves_store_unchanged
    (s : state) (portal_id : string) (rt : json) :
  status_code (server E (calls s) (TokenRefresh rt)) <> 200 ->
  exists s',
    refresh_access_token E portal_id rt s = (Ok JNull, s') /\
    token_storage s' = token_storage s /\
    token_storage s' !! portal_id = token_storage s !! portal_id /\
    calls s' = calls s ++ [TokenRefresh rt].
Proof.
  intros Hst. eexists. split; [apply refresh_rejected; exact Hst |].
  simpl. auto.
Qed.

Lemma timedelta_in_range (n : Z) :
  0 <= n < datetime_max -> timedelta (JNum n) = Ok n.
Proof.
  intros [Hlo Hhi]. unfold timedelta.
  assert (0 <= n / 86400) by (apply Z.div_pos; lia).
  assert (n / 86400 < 3652059).
  { apply Z.div_lt_upper_bound; [lia |]. unfold datetime_max in Hhi. lia. }
  rewrite (proj2 (Z.leb_le _ _)), (proj2 (Z.leb_le _ _));
    [reflexivity | unfold timedelta_max_days; lia ..].
Qed.


Lemma datetime_add_value (t d r : Z) :
  datetime_add t d = Ok r -> r = t + d.
Proof.
  unfold datetime_add. destruct (_ && _); [| discriminate].
  intros [= <-]. reflexivity.
Qed.

(** What a refresh that returns normally on a 200 reply has done. *)
Lemma refresh_accepted (s s' : state) (portal_id : string) (rt tok : json) :
  let reply := server E (calls s) (TokenRefresh rt) in
  let sent := calls s ++ [TokenRefresh rt] in
  status_code reply = 200 ->
  refresh_access_token E portal_id rt s = (Ok tok, s') ->
  exists fields ei d,
    body reply = Some (JObj fields) /\
    dict_lookup "access_token" fields = Some tok /\
    dict_lookup "expires_in" fields = Some ei /\
    timedelta ei = Ok d /\
    s' = {| token_storage :=
              <[portal_id :=
                  {| access_token := tok;
                     refresh_token :=
                       default rt (dict_lookup "refresh_token" fields);
                     expires_at := clock E sent + d;
                     scope :=
                       default (JStr EmptyString) (dict_lookup "scope" fields) |}]>
                (token_storage s);
            calls := sent |}.
Proof.
  intros reply sent Hst. unfold refresh_access_token. unfold_monad.
  fold reply. rewrite Hst. simpl. unfold response_json.
  destruct (body reply) as [data |]; [| discriminate].
  destruct data as [| | | | | fields]; simpl; try discriminate.
  destruct (dict_lookup "access_token" fields) as [a |] eqn:Ha; [| discriminate].
  destruct (dict_lookup "expires_in" fields) as [ei |] eqn:He; [| discriminate].
  destruct (timedelta ei) as [d |] eqn:Hd; [| discriminate].
  destruct (datetime_add (clock E (calls s ++ [TokenRefresh rt])) d)
    as [r |] eqn:Hr; [| discriminate].
  apply datetime_add_value in Hr. subst r.
  intros [= <- <-]. exists fields, ei, d. repeat split; auto.
Qed.

Lemma refresh_calls (s : state) (portal_id : string) (rt : json) :
  calls (snd (refresh_access_token E portal_id rt s)) =
    calls s ++ [TokenRefresh rt].
Proof.
  unfold refresh_access_token. unfold_monad.
  destruct (status_code _ =? 200); [| reflexivity].
  destruct (response_json _) as [data |]; [| reflexivity].
  destruct (py_getitem data "access_token"); [| reflexivity].
  destruct (py_get data "refresh_token" rt); [| reflexivity].
  destruct (py_getitem data "expires_in") as [ei |]; [| reflexivity].
  destruct (timedelta ei) as [d |]; [| reflexivity].
  destruct (datetime_add _ d); [| reflexivity].
  destruct (py_get data "scope" _); reflexivity.
Qed.

Lemma expired_resolution
    (s : state) (portal_id : string) (t : token_record) :
  token_storage s !! portal_id = Some t ->
  clock E (calls s) > expires_at t ->
  get_hubspot_access_token E portal_id s =
    if py_truthy (refresh_token t)
    then refresh_access_token E portal_id (refresh_token t) s
    else (Ok JNull, s).
Proof.
  intros Hget Hexp. unfold get_hubspot_access_token.
  unfold mbind at 1 2. unfold M_bind, storage_get, datetime_now.
  rewrite Hget.
  destruct (Z.gtb_spec (clock E (calls s)) (expires_at t)); [| lia].
  destruct (py_truthy (refresh_token t)); reflexivity.
Qed.

Lemma expired_with_refresh_token
    (s : state) (portal_id : string) (t : token_record) :
  token_storage s !! portal_id = Some t ->
  clock E (calls s) > expires_at t ->
  py_truthy (refresh_token t) = true ->
  get_hubspot_access_token E portal_id s =
    refresh_access_token E portal_id (refresh_token t) s.
Proof.
  intros Hget Hexp Hrt.
  rewrite (expired_resolution s portal_id t Hget Hexp), Hrt. reflexivity.
Qed.

Lemma refresh_raise_keeps_store
    (s s' : state) (portal_id : string) (rt : json) (e : exn) :
  refresh_access_token E portal_id rt s = (Raise e, s') ->
  token_storage s' = token_storage s.
Proof.
  unfold refresh_access_token. unfold_monad.
  destruct (status_code _ =? 200); [| discriminate].
  destruct (response_json _) as [data |]; [| intros [= _ <-]; reflexivity].
  destruct (py_getitem data "access_token");
    [| intros [= _ <-]; reflexivity].
  destruct (py_get data "refresh_token" rt); [| intros [= _ <-]; reflexivity].
  destruct (py_getitem data "expires_in") as [ei |];
    [| intros [= _ <-]; reflexivity].
  destruct (timedelta ei) as [d |]; [| intros [= _ <-]; reflexivity].
  destruct (datetime_add _ d); [| intros [= _ <-]; reflexivity].
  destruct (py_get data "scope" _); [discriminate |].
  intros [= _ <-]. reflexivity.
Qed.

(** C4: an expired record with a refresh token, refreshed by a 200 reply
    without a [refresh_token] member, keeps the refresh token it had,
    whatever else the reply holds; and when the reply carries
    [access_token] and a non-negative [expires_in], the record is replaced
    by one with the new access token, the prior refresh token and the
    expiry [now + expires_in] ([now] read after the call). *)
Theorem refresh_keeps_prior_refresh_token
    (s : state) (portal_id : string) (t : token_record) :
  token_storage s !! portal_id = Some t ->
  clock E (calls s) > expires_at t ->
  py_truthy (refresh_token t) = true ->
  status_code (server E (calls s) (TokenRefresh (refresh_token t))) = 200 ->
  (forall fields,
     body (server E (calls s) (TokenRefresh (refresh_token t))) =
       Some (JObj fields) ->
     dict_lookup "refresh_token" fields = None) ->
  (exists t',
     token_storage (snd (get_hubspot_access_token E portal_id s)) !! portal_id
       = Some t' /\
     refresh_token t' = refresh_token t) /\
  (forall (fields : list (string * json)) (a : json) (n : Z),
     body (server E (calls s) (TokenRefresh (refresh_token t))) =
       Some (JObj fields) ->
     dict_lookup "access_token" fields = Some a ->
     dict_lookup "expires_in" fields = Some (JNum n) ->
     0 <= n ->
     0 <= clock E (calls s ++ [TokenRefresh (refresh_token t)]) ->
     clock E (calls s ++ [TokenRefresh (refresh_token t)]) + n
       < datetime_max ->
     get_hubspot_access_token E portal_id s =
       (Ok a,
        {| token_storage :=
             <[portal_id :=
                 {| access_token := a;
                    refresh_token := refresh_token t;
                    expires_at :=
                      clock E (calls s ++ [TokenRefresh (refresh_token t)]) + n;
                    scope :=
                      default (JStr EmptyString) (dict_lookup "scope" fields)
                 |}]>
               (token_storage s);
           calls := calls s ++ [TokenRefresh (refresh_token t)] |})).
Proof.
  intros Hget Hexp Hrt Hst Homit.
  rewrite (expired_with_refresh_token s portal_id t Hget Hexp Hrt).
  split.
  - destruct (refresh_access_token E portal_id (refresh_token t) s)
      as [[tok | e] s'] eqn:Hrun; cbn [snd].
    + destruct (refresh_accepted s s' portal_id (refresh_token t) tok Hst Hrun)
        as (fields & ei & d & Hbody & _ & _ & _ & ->).
      eexists. split; [apply lookup_insert_eq |].
      cbn [refresh_token]. rewrite (Homit fields Hbody). reflexivity.
    + apply refresh_raise_keeps_store in Hrun. rewrite Hrun. eauto.
  - intros fields a n Hbody Ha He Hn Hnow Hmax.
    unfold refresh_access_token. unfold_monad. rewrite Hst.
    unfold response_json. rewrite Hbody. simpl.
    rewrite Ha, He, (Homit fields Hbody). simpl.
    rewrite timedelta_in_range by lia.
    unfold datetime_add.
    rewrite (proj2 (Z.leb_le _ _)), (proj2 (Z.ltb_lt _ _)) by lia.
    reflexivity.
Qed.





End TokenLifecycle.

(** C5 at the portal "42" with a record that expires in ten seconds. *)
Lemma valid_token_witness :
  get_hubspot_access_token refreshing_env "42" (store_of fresh_record) =
    (Ok (JStr "a1"), store_of fresh_record).
Proof.
  apply (valid_token_is_returned_without_network refreshing_env
           (store_of fresh_record) "42" fresh_record).
  - reflexivity.
  - vm_compute. discriminate.
Defined.

(** C10 at the portal "42" with the token endpoint answering 400. *)
Lemma failed_refresh_witness :
  exists s',
    refresh_access_token rejecting_env "42" (JStr "r1") (store_of stale_record)
      = (Ok JNull, s') /\
    token_storage s' = token_storage (store_of stale_record) /\
    token_storage s' !! "42" = Some stale_record /\
    calls s' = [TokenRefresh (JStr "r1")].
Proof.
  apply (failed_refresh_leaves_store_unchanged rejecting_env
           (store_of stale_record) "42" (JStr "r1")).
  vm_compute. discriminate.
Defined.

(** C4, the scenario of the specification: tenant "42", expired ten
    seconds ago, refresh token "r1", reply without [refresh_token]. *)
Lemma refresh_scenario_witness :
  get_hubspot_access_token refreshing_env "42" (store_of stale_record) =
    (Ok (JStr "a2"),
     {| token_storage :=
          <["42" := {| access_token := JStr "a2"; refresh_token := JStr "r1";
                       expires_at := now0 + 3600; scope := JStr EmptyString |}]>
            (token_storage (store_of stale_record));
        calls := [TokenRefresh (JStr "r1")] |}).
Proof.
  destruct (refresh_keeps_prior_refresh_token refreshing_env
              (store_of stale_record) "42" stale_record) as [_ Hrecord].
  - reflexivity.
  - reflexivity.
  - reflexivity.
  - reflexivity.
  - intros fields [= <-]. reflexivity.
  - apply (Hrecord
             [("access_token", JStr "a2"); ("expires_in", JNum 3600)]
             (JStr "a2") 3600).
    all: try reflexivity.
    all: vm_compute; discriminate.
Defined.




#[local] Arguments rest_results : simpl never.
#[local] Arguments rest_deal_name : simpl never.
#[local] Arguments rest_record : simpl never.
#[local] Arguments py_getitem : simpl never.

Ltac reduce_reply :=
  cbn [status_code ok_response body response_json negb Z.eqb Pos.eqb].

Section Retrieval.

Variable E : env.

Lemma graphql_calls (tok : json) (cid : string) (s : state) :
  snd (get_company_line_items_graphql E tok cid s) =
    (sent s [GraphqlQuery tok cid]).
Proof.
  unfold get_company_line_items_graphql. unfold_monad.
  destruct (negb _); [reflexivity |].
  destruct (response_json _) as [data |]; [| reflexivity].
  destruct (py_in "errors" data) as [[|] |]; try reflexivity.
  - destruct (py_getitem data "errors"); reflexivity.
  - destruct (graphql_deals data) as [deals |]; [| reflexivity].
    destruct (graphql_deals_loop deals []); reflexivity.
Qed.

(** What the structured query does with a body that passed the [errors]
    test never is [None]. *)
Lemma graphql_conclusive (data : json) (s1 : state) :
  fst (match graphql_deals data with
       | Ok deals =>
           match graphql_deals_loop deals [] with
           | Ok line_items => (Ok (Some line_items), s1)
           | Raise e => (Raise e, s1)
           end
       | Raise e => (Raise e, s1)
       end) <> Ok None.
Proof.
  destruct (graphql_deals data) as [deals |]; [| discriminate].
  destruct (graphql_deals_loop deals []); discriminate.
Qed.

(** When the structured query is inconclusive. *)
Lemma graphql_none_iff (tok : json) (cid : string) (s : state) :
  fst (get_company_line_items_graphql E tok cid s) = Ok None <->
  status_code (server E (calls s) (GraphqlQuery tok cid)) <> 200 \/
  exists fields v,
    body (server E (calls s) (GraphqlQuery tok cid)) = Some (JObj fields) /\
    dict_lookup "errors" fields = Some v.
Proof.
  unfold get_company_line_items_graphql. unfold_monad.
  destruct (Z.eqb_spec (status_code (server E (calls s) (GraphqlQuery tok cid))) 200)
    as [Heq | Hne]; cbn [negb].
  - unfold response_json.
    destruct (body (server E (calls s) (GraphqlQuery tok cid))) as [data |].
    + destruct data as [| b | n | str | items | fields].
      * split; [discriminate |].
        intros [Hc | (f & v & [=] & _)]; contradiction.
      * split; [discriminate |].
        intros [Hc | (f & v & [=] & _)]; contradiction.
      * split; [discriminate |].
        intros [Hc | (f & v & [=] & _)]; contradiction.
      * split.
        -- cbn [py_in]. destruct (str_contains "errors" str);
             [discriminate | intros H; apply graphql_conclusive in H;
                             contradiction].
        -- intros [Hc | (f & v & [=] & _)]; contradiction.
      * split.
        -- cbn [py_in]. destruct (existsb (is_str "errors") items);
             [discriminate | intros H; apply graphql_conclusive in H;
                             contradiction].
        -- intros [Hc | (f & v & [=] & _)]; contradiction.
      * cbn [py_in]. unfold py_getitem.
        destruct (dict_lookup "errors" fields) as [v |] eqn:Hv.
        -- split; [intros _; right; eauto | reflexivity].
        -- split.
           ++ intros H. apply graphql_conclusive in H. contradiction.
           ++ intros [Hc | (f & v & [= <-] & Hf)]; [contradiction | congruence].
    + split; [discriminate |].
      intros [Hc | (f & v & Hd & _)]; [contradiction | discriminate].
  - split; [intros _; left; exact Hne | reflexivity].
Qed.

Lemma rest_frame_refl {A} (s : state) (r : result A) : rest_frame s (r, s).
Proof. exists []. simpl. rewrite app_nil_r. auto. Qed.

Lemma rest_frame_step {A} (s : state) (q : request) (out : result A * state) :
  is_rest_request q = true ->
  rest_frame (sent s [q]) out ->
  rest_frame s out.
Proof.
  intros Hq (new & Hts & Hc & Hall). exists (q :: new). simpl in *.
  rewrite Hts, Hc, <- app_assoc, Hq. auto.
Qed.

Lemma rest_frame_trans {A B} (s s' : state) (r : result A)
    (out : result B * state) :
  rest_frame s (r, s') -> rest_frame s' out -> rest_frame s out.
Proof.
  intros (n1 & Hts1 & Hc1 & Ha1) (n2 & Hts2 & Hc2 & Ha2). exists (n1 ++ n2).
  simpl in *. rewrite Hts2, Hts1, Hc2, Hc1, <- app_assoc, forallb_app, Ha1, Ha2.
  auto.
Qed.

Lemma rest_items_loop_frame (tok dname : json) (l : list json) :
  forall (acc : list LineItem) (s : state),
    rest_frame s (rest_items_loop E tok dname l acc s).
Proof.
  induction l as [| a l IH]; intros acc s.
  - apply rest_frame_refl.
  - cbn [rest_items_loop]. unfold_monad.
    destruct (py_getitem a "id") as [id |]; [| apply rest_frame_refl].
    apply (rest_frame_step s (LineItemDetails tok id)); [reflexivity |].
    destruct (negb _); [apply IH |].
    destruct (response_json _) as [data |]; [| apply rest_frame_refl].
    destruct (rest_record dname data); [apply IH | apply rest_frame_refl].
Qed.

Lemma rest_deals_loop_frame (tok : json) (l : list json) :
  forall (acc : list LineItem) (s : state),
    rest_frame s (rest_deals_loop E tok l acc s).
Proof.
  induction l as [| a l IH]; intros acc s.
  - apply rest_frame_refl.
  - cbn [rest_deals_loop]. unfold_monad.
    destruct (py_getitem a "id") as [id |]; [| apply rest_frame_refl].
    apply (rest_frame_step s (DealDetails tok id)); [reflexivity |].
    destruct (negb _); [apply IH |].
    destruct (response_json _) as [data |]; [| apply rest_frame_refl].
    destruct (rest_deal_name data) as [dname |]; [| apply rest_frame_refl].
    match goal with
    | |- rest_frame ?s0 _ =>
        apply (rest_frame_step s0 (DealLineItems tok id)); [reflexivity |]
    end.
    cbn [token_storage calls].
    destruct (negb _); [apply IH |].
    destruct (response_json _) as [items |]; [| apply rest_frame_refl].
    destruct (rest_results items) as [assocs |]; [| apply rest_frame_refl].
    match goal with
    | |- rest_frame ?s0 _ =>
        pose proof (rest_items_loop_frame tok dname assocs acc s0) as Hitems
    end.
    destruct (rest_items_loop E tok dname assocs acc _) as [[acc' | e] s1].
    + eapply rest_frame_trans; [exact Hitems | apply IH].
    + exact Hitems.
Qed.

(** The fallback always starts by listing the company's deals. *)
Lemma rest_calls (tok : json) (cid : string) (s : state) :
  exists more,
    token_storage (snd (get_company_line_items_rest E tok cid s)) =
      token_storage s /\
    calls (snd (get_company_line_items_rest E tok cid s)) =
      calls s ++ CompanyDeals tok cid :: more /\
    forallb is_rest_request more = true.
Proof.
  assert (rest_frame
            (sent s [CompanyDeals tok cid])
            (get_company_line_items_rest E tok cid s)) as (more & Hts & Hc & Ha).
  { unfold get_company_line_items_rest. unfold_monad.
    destruct (negb _); [apply rest_frame_refl |].
    destruct (response_json _) as [data |]; [| apply rest_frame_refl].
    destruct (rest_results data) as [assocs |]; [| apply rest_frame_refl].
    apply rest_deals_loop_frame. }
  exists more. simpl in Hts, Hc. rewrite Hts, Hc, <- app_assoc. auto.
Qed.

Lemma fetch_cases (tok : json) (cid : string) (s : state) :
  fetch_line_items E tok cid s =
    match get_company_line_items_graphql E tok cid s with
    | (Ok None, s1) => rest_fallback E tok cid s1
    | (Ok (Some l), s1) => (Ok (LineItemsJson cid l), s1)
    | (Raise _, s1) => (Ok (ErrorJson "Failed to fetch line items" 500), s1)
    end.
Proof.
  unfold fetch_line_items, rest_fallback. unfold_monad.
  destruct (get_company_line_items_graphql E tok cid s) as [[[l |] | e] s1];
    reflexivity.
Qed.

Lemma rest_fallback_calls (tok : json) (cid : string) (s : state) :
  exists more,
    calls (snd (rest_fallback E tok cid s)) =
      calls s ++ CompanyDeals tok cid :: more.
Proof.
  destruct (rest_calls tok cid s) as (more & _ & Hc & _). exists more.
  rewrite <- Hc. unfold rest_fallback. unfold_monad.
  destruct (get_company_line_items_rest E tok cid s) as [[l | e] s1];
    reflexivity.
Qed.

Lemma inconclusive_on_failed_status (tok : json) (cid : string) (s : state) :
  status_code (server E (calls s) (GraphqlQuery tok cid)) <> 200 ->
  fst (get_company_line_items_graphql E tok cid s) = Ok None /\
  fetch_line_items E tok cid s =
    rest_fallback E tok cid
      (sent s [GraphqlQuery tok cid]).
Proof.
  intros Hst.
  assert (fst (get_company_line_items_graphql E tok cid s) = Ok None) as Hn.
  { apply graphql_none_iff. left. exact Hst. }
  split; [exact Hn |]. rewrite fetch_cases.
  pose proof (graphql_calls tok cid s) as Hs1.
  destruct (get_company_line_items_graphql E tok cid s) as [r s1].
  cbn [fst snd] in *. subst. reflexivity.
Qed.

(** C1: [fetch_line_items] issues REST requests if and only if the
    structured query returns [None]; it returns [None] exactly on a status
    other than 200 or on a 200 reply whose body is an object with an
    [errors] member; a structured-query success with no records is
    answered with the empty list after the one query; and on [None] what
    runs is the REST fallback. *)
Theorem rest_fallback_iff_inconclusive (tok : json) (cid : string) (s : state) :
  (existsb is_rest_request
     (new_calls s (snd (fetch_line_items E tok cid s))) = true <->
   fst (get_company_line_items_graphql E tok cid s) = Ok None) /\
  (fst (get_company_line_items_graphql E tok cid s) = Ok None <->
   status_code (server E (calls s) (GraphqlQuery tok cid)) <> 200 \/
   exists fields v,
     body (server E (calls s) (GraphqlQuery tok cid)) = Some (JObj fields) /\
     dict_lookup "errors" fields = Some v) /\
  (fst (get_company_line_items_graphql E tok cid s) = Ok (Some []) ->
   fetch_line_items E tok cid s =
     (Ok (LineItemsJson cid []),
      sent s [GraphqlQuery tok cid])) /\
  (fst (get_company_line_items_graphql E tok cid s) = Ok None ->
   fetch_line_items E tok cid s =
     rest_fallback E tok cid
       (sent s [GraphqlQuery tok cid])).
Proof.
  split; [| split; [apply graphql_none_iff |]];
    rewrite fetch_cases; pose proof (graphql_calls tok cid s) as Hs1;
    destruct (get_company_line_items_graphql E tok cid s) as [[[l |] | e] s1];
    cbn [fst snd] in *; subst s1.
  - unfold new_calls, sent. cbn [snd calls]. rewrite drop_app_length.
    split; discriminate.
  - split; [reflexivity | intros _].
    match goal with
    | |- context [rest_fallback E tok cid ?s0] =>
        destruct (rest_fallback_calls tok cid s0) as (more & Hc)
    end.
    unfold new_calls. rewrite Hc. unfold sent. cbn [calls].
    rewrite <- app_assoc.
    rewrite drop_app_length. reflexivity.
  - unfold new_calls, sent. cbn [snd calls]. rewrite drop_app_length.
    split; discriminate.
  - split; [intros [= ->]; reflexivity | discriminate].
  - split; [discriminate | reflexivity].
  - split; discriminate.
Qed.

Lemma graphql_deals_absent (data : json) :
  absent_along deals_path data = true -> graphql_deals data = Ok [].
Proof.
  unfold deals_path, graphql_deals. unfold_monad.
  destruct data as [| | | | | f0]; [discriminate .. |]. cbn.
  destruct (dict_lookup "data" f0) as [[| | | | | f1] |];
    cbn; try discriminate; try reflexivity.
  destruct (dict_lookup "CRM" f1) as [[| | | | | f2] |];
    cbn; try discriminate; try reflexivity.
  destruct (dict_lookup "company" f2) as [[| | | | | f3] |];
    cbn; try discriminate; try reflexivity.
  destruct (dict_lookup "associations" f3) as [[| | | | | f4] |];
    cbn; try discriminate; try reflexivity.
  destruct (dict_lookup "deals" f4) as [[| | | | | f5] |];
    cbn; try discriminate; try reflexivity.
  destruct (dict_lookup "items" f5) as [v |];
    cbn; try discriminate; try reflexivity.
Qed.

(** C3, as the code has it: on a 200 reply whose body is an object without
    an [errors] member and in which a container on the way to the deals
    is absent, the structured query takes the absent container for an
    empty one and returns the empty list, not [None]; [fetch_line_items]
    answers with the empty list and makes no REST request. *)
Theorem absent_container_reads_as_empty
    (tok : json) (cid : string) (s : state) (fields : list (string * json)) :
  server E (calls s) (GraphqlQuery tok cid) = ok_response (JObj fields) ->
  dict_lookup "errors" fields = None ->
  absent_along deals_path (JObj fields) = true ->
  get_company_line_items_graphql E tok cid s =
    (Ok (Some []),
     sent s [GraphqlQuery tok cid]) /\
  fetch_line_items E tok cid s =
    (Ok (LineItemsJson cid []),
     sent s [GraphqlQuery tok cid]).
Proof.
  intros Hreply Herr Habs.
  assert (get_company_line_items_graphql E tok cid s =
            (Ok (Some []),
             sent s [GraphqlQuery tok cid])) as Hg.
  { unfold get_company_line_items_graphql. unfold_monad.
    rewrite Hreply. cbn. rewrite Herr. cbn.
    rewrite (graphql_deals_absent (JObj fields) Habs). reflexivity. }
  split; [exact Hg |]. rewrite fetch_cases, Hg. reflexivity.
Qed.

(** C8, as the code has it: [fetch_line_items] never raises.  It answers
    with the list of records that the structured query returned or, the
    query being inconclusive, that the REST traversal returned; it
    answers with the 500 error of its [except] clause exactly when the
    structured query raises or, the query being inconclusive, the REST
    traversal raises; and when the structured query and the listing of
    deals both fail by status, the answer is the empty list. *)
Theorem fetch_line_items_never_raises (tok : json) (cid : string) (s : state) :
  ((exists l, fst (fetch_line_items E tok cid s) = Ok (LineItemsJson cid l)) \/
   fst (fetch_line_items E tok cid s) =
     Ok (ErrorJson "Failed to fetch line items" 500)) /\
  (forall l,
     fst (fetch_line_items E tok cid s) = Ok (LineItemsJson cid l) <->
     fst (get_company_line_items_graphql E tok cid s) = Ok (Some l) \/
     (fst (get_company_line_items_graphql E tok cid s) = Ok None /\
      fst (get_company_line_items_rest E tok cid
             (sent s [GraphqlQuery tok cid])) = Ok l)) /\
  (fst (fetch_line_items E tok cid s) =
     Ok (ErrorJson "Failed to fetch line items" 500) <->
   exists e,
     fst (get_company_line_items_graphql E tok cid s) = Raise e \/
     (fst (get_company_line_items_graphql E tok cid s) = Ok None /\
      fst (get_company_line_items_rest E tok cid
             (sent s [GraphqlQuery tok cid])) = Raise e)) /\
  (status_code (server E (calls s) (GraphqlQuery tok cid)) <> 200 ->
   status_code
     (server E (calls s ++ [GraphqlQuery tok cid]) (CompanyDeals tok cid))
     <> 200 ->
   fetch_line_items E tok cid s =
     (Ok (LineItemsJson cid []),
      sent s [GraphqlQuery tok cid; CompanyDeals tok cid])).
Proof.
  assert (fst (fetch_line_items E tok cid s) =
          match fst (get_company_line_items_graphql E tok cid s) with
          | Ok (Some l) => Ok (LineItemsJson cid l)
          | Ok None =>
              match fst (get_company_line_items_rest E tok cid
                           (sent s [GraphqlQuery tok cid])) with
              | Ok l => Ok (LineItemsJson cid l)
              | Raise _ => Ok (ErrorJson "Failed to fetch line items" 500)
              end
          | Raise _ => Ok (ErrorJson "Failed to fetch line items" 500)
          end) as Hf.
  { rewrite fetch_cases. pose proof (graphql_calls tok cid s) as Hs1.
    destruct (get_company_line_items_graphql E tok cid s) as [[[l |] | e] s1];
      cbn [fst snd] in *; subst s1; try reflexivity.
    unfold rest_fallback. unfold_monad.
    destruct (get_company_line_items_rest E tok cid _) as [[l | e] s2];
      reflexivity. }
  split; [| split; [| split]].
  - rewrite Hf.
    destruct (fst (get_company_line_items_graphql E tok cid s))
      as [[l |] | e]; eauto.
    destruct (fst (get_company_line_items_rest E tok cid _)) as [l | e];
      eauto.
  - intros l. rewrite Hf.
    destruct (fst (get_company_line_items_graphql E tok cid s))
      as [[l0 |] | e].
    + split; [intros [= ->]; left; reflexivity |].
      intros [[= ->] | [[=] _]]. reflexivity.
    + destruct (fst (get_company_line_items_rest E tok cid _)) as [l0 | e].
      * split; [intros [= ->]; right; split; reflexivity |].
        intros [[=] | [_ [= ->]]]. reflexivity.
      * split; [discriminate |]. intros [[=] | [_ [=]]].
    + split; [discriminate |]. intros [[=] | [[=] _]].
  - rewrite Hf.
    destruct (fst (get_company_line_items_graphql E tok cid s))
      as [[l0 |] | e].
    + split; [discriminate |]. intros (e & [[=] | [[=] _]]).
    + destruct (fst (get_company_line_items_rest E tok cid _)) as [l0 | e].
      * split; [discriminate |]. intros (e & [[=] | [_ [=]]]).
      * split; [intros _; exists e; right; split; reflexivity |].
        reflexivity.
    + split; [intros _; exists e; left; reflexivity | reflexivity].
  - intros Hg Hd.
    destruct (inconclusive_on_failed_status tok cid s Hg) as [Hnone Hrun].
    rewrite Hrun. unfold rest_fallback, get_company_line_items_rest.
    unfold_monad. unfold sent. cbn [calls token_storage].
    destruct (Z.eqb_spec
                (status_code
                   (server E (calls s ++ [GraphqlQuery tok cid])
                      (CompanyDeals tok cid))) 200); [contradiction |].
    cbn. rewrite <- app_assoc. reflexivity.
Qed.

Lemma deal_skipped_when_details_fail
    (tok a id : json) (rest : list json) (acc : list LineItem) (s : state) :
  py_getitem a "id" = Ok id ->
  status_code (server E (calls s) (DealDetails tok id)) <> 200 ->
  rest_deals_loop E tok (a :: rest) acc s =
    rest_deals_loop E tok rest acc (sent s [DealDetails tok id]).
Proof.
  intros Hid Hst. cbn [rest_deals_loop]. unfold_monad. rewrite Hid.
  destruct (Z.eqb_spec (status_code (server E (calls s) (DealDetails tok id)))
              200); [contradiction | reflexivity].
Qed.

Lemma deal_skipped_when_listing_fails
    (tok a id data dname : json) (rest : list json) (acc : list LineItem)
    (s : state) :
  py_getitem a "id" = Ok id ->
  server E (calls s) (DealDetails tok id) = ok_response data ->
  rest_deal_name data = Ok dname ->
  status_code
    (server E (calls s ++ [DealDetails tok id]) (DealLineItems tok id))
    <> 200 ->
  rest_deals_loop E tok (a :: rest) acc s =
    rest_deals_loop E tok rest acc
      (sent s [DealDetails tok id; DealLineItems tok id]).
Proof.
  intros Hid Hd Hname Hst. cbn [rest_deals_loop]. unfold_monad.
  rewrite Hid, Hd. cbn. rewrite Hname.
  destruct (Z.eqb_spec
              (status_code
                 (server E (calls s ++ [DealDetails tok id])
                    (DealLineItems tok id))) 200); [contradiction |].
  cbn. unfold sent. rewrite <- app_assoc. reflexivity.
Qed.

Lemma item_skipped_when_details_fail
    (tok dname a id : json) (rest : list json) (acc : list LineItem)
    (s : state) :
  py_getitem a "id" = Ok id ->
  status_code (server E (calls s) (LineItemDetails tok id)) <> 200 ->
  rest_items_loop E tok dname (a :: rest) acc s =
    rest_items_loop E tok dname rest acc (sent s [LineItemDetails tok id]).
Proof.
  intros Hid Hst. cbn [rest_items_loop]. unfold_monad. rewrite Hid.
  destruct (Z.eqb_spec
              (status_code (server E (calls s) (LineItemDetails tok id))) 200);
    [contradiction | reflexivity].
Qed.

Lemma rest_items_loop_keeps (tok dname : json) (l : list json) :
  forall (acc r : list LineItem) (s s' : state),
    rest_items_loop E tok dname l acc s = (Ok r, s') ->
    exists new, r = acc ++ new.
Proof.
  induction l as [| a l IH]; intros acc r s s'.
  - intros [= <- <-]. exists []. rewrite app_nil_r. reflexivity.
  - cbn [rest_items_loop]. unfold_monad.
    destruct (py_getitem a "id") as [id |]; [| discriminate].
    destruct (negb _); [apply IH |].
    destruct (response_json _) as [data |]; [| discriminate].
    destruct (rest_record dname data) as [rec |]; [| discriminate].
    intros Hrun. apply IH in Hrun. destruct Hrun as (new & ->).
    exists (rec :: new). rewrite <- app_assoc. reflexivity.
Qed.

Lemma rest_deals_loop_keeps (tok : json) (l : list json) :
  forall (acc r : list LineItem) (s s' : state),
    rest_deals_loop E tok l acc s = (Ok r, s') ->
    exists new, r = acc ++ new.
Proof.
  induction l as [| a l IH]; intros acc r s s'.
  - intros [= <- <-]. exists []. rewrite app_nil_r. reflexivity.
  - cbn [rest_deals_loop]. unfold_monad.
    destruct (py_getitem a "id") as [id |]; [| discriminate].
    destruct (negb _); [apply IH |].
    destruct (response_json _) as [data |]; [| discriminate].
    destruct (rest_deal_name data) as [dname |]; [| discriminate].
    destruct (negb _); [apply IH |].
    destruct (response_json _) as [items |]; [| discriminate].
    destruct (rest_results items) as [assocs |]; [| discriminate].
    destruct (rest_items_loop E tok dname assocs acc _)
      as [[acc' | e] s1] eqn:Hitems; [| discriminate].
    apply rest_items_loop_keeps in Hitems. destruct Hitems as (n1 & ->).
    intros Hrun. apply IH in Hrun. destruct Hrun as (n2 & ->).
    exists (n1 ++ n2). rewrite app_assoc. reflexivity.
Qed.

(** C7: in the REST traversal a deal whose details call or whose
    line-item listing fails by status is skipped, and so is a line item
    whose details call fails: the loop goes on with the records gathered
    so far; whatever the loop returns extends those records; and for a
    company with two deals, the listing failing for the first and the
    second having one line item, the traversal returns exactly the
    record of that line item. *)
Theorem failed_node_is_skipped (tok : json) :
  (forall (a id : json) (rest : list json) (acc : list LineItem) (s : state),
     py_getitem a "id" = Ok id ->
     status_code (server E (calls s) (DealDetails tok id)) <> 200 ->
     rest_deals_loop E tok (a :: rest) acc s =
       rest_deals_loop E tok rest acc (sent s [DealDetails tok id])) /\
  (forall (a id data dname : json) (rest : list json) (acc : list LineItem)
          (s : state),
     py_getitem a "id" = Ok id ->
     server E (calls s) (DealDetails tok id) = ok_response data ->
     rest_deal_name data = Ok dname ->
     status_code
       (server E (calls s ++ [DealDetails tok id]) (DealLineItems tok id))
       <> 200 ->
     rest_deals_loop E tok (a :: rest) acc s =
       rest_deals_loop E tok rest acc
         (sent s [DealDetails tok id; DealLineItems tok id])) /\
  (forall (dname a id : json) (rest : list json) (acc : list LineItem)
          (s : state),
     py_getitem a "id" = Ok id ->
     status_code (server E (calls s) (LineItemDetails tok id)) <> 200 ->
     rest_items_loop E tok dname (a :: rest) acc s =
       rest_items_loop E tok dname rest acc
         (sent s [LineItemDetails tok id])) /\
  (forall (l : list json) (acc r : list LineItem) (s s' : state),
     rest_deals_loop E tok l acc s = (Ok r, s') ->
     exists new, r = acc ++ new) /\
  (forall (cid : string) (s : state)
          (deals assocA assocB idA idB dataA dataB nameA nameB : json)
          (itemsB assocL idL dataL : json) (rec : LineItem),
     replies E (CompanyDeals tok cid) (ok_response deals) ->
     rest_results deals = Ok [assocA; assocB] ->
     py_getitem assocA "id" = Ok idA ->
     py_getitem assocB "id" = Ok idB ->
     replies E (DealDetails tok idA) (ok_response dataA) ->
     rest_deal_name dataA = Ok nameA ->
     (forall h, status_code (server E h (DealLineItems tok idA)) <> 200) ->
     replies E (DealDetails tok idB) (ok_response dataB) ->
     rest_deal_name dataB = Ok nameB ->
     replies E (DealLineItems tok idB) (ok_response itemsB) ->
     rest_results itemsB = Ok [assocL] ->
     py_getitem assocL "id" = Ok idL ->
     replies E (LineItemDetails tok idL) (ok_response dataL) ->
     rest_record nameB dataL = Ok rec ->
     fst (get_company_line_items_rest E tok cid s) = Ok [rec]).
Proof.
  split; [intros; apply deal_skipped_when_details_fail; assumption |].
  split; [intros; eapply deal_skipped_when_listing_fails; eassumption |].
  split; [intros; apply item_skipped_when_details_fail; assumption |].
  split; [intros l acc r s s'; apply rest_deals_loop_keeps |].
  intros cid s deals assocA assocB idA idB dataA dataB nameA nameB
    itemsB assocL idL dataL rec
    Hdeals Hres HidA HidB HdA HnA HlA HdB HnB HlB HresB HidL HdL Hrec.
  unfold get_company_line_items_rest. unfold_monad.
  rewrite (Hdeals _). cbn. rewrite Hres.
  rewrite (deal_skipped_when_listing_fails tok assocA idA dataA nameA);
    [| exact HidA | apply HdA | exact HnA | apply HlA].
  cbn [rest_deals_loop]. unfold_monad.
  rewrite HidB, (HdB _). cbn. rewrite HnB, (HlB _). cbn. rewrite HresB.
  cbn [rest_items_loop]. unfold_monad.
  rewrite HidL, (HdL _). cbn. rewrite Hrec. reflexivity.
Qed.

Lemma records_agree (dname x : json) :
  graphql_record dname x = rest_record dname x.
Proof. reflexivity. Qed.

Lemma deal_names_agree (x : json) : graphql_deal_name x = rest_deal_name x.
Proof. reflexivity. Qed.

Lemma record_defaults (dname : json) (fields pf : list (string * json)) :
  py_get (JObj fields) "properties" (JObj []) = Ok (JObj pf) ->
  rest_record dname (JObj fields) =
    Ok {| deal_name := dname;
          line_item_name := default (JStr "Unknown Item") (dict_lookup "name" pf);
          quantity := default (JNum 0) (dict_lookup "quantity" pf);
          unit_price := default (JNum 0) (dict_lookup "price" pf);
          amount := default (JNum 0) (dict_lookup "amount" pf) |}.
Proof.
  intros Hp. unfold rest_record. rewrite Hp. reflexivity.
Qed.

Lemma deal_name_default (fields pf : list (string * json)) :
  py_get (JObj fields) "properties" (JObj []) = Ok (JObj pf) ->
  rest_deal_name (JObj fields) =
    Ok (default (JStr "Unknown Deal") (dict_lookup "dealname" pf)).
Proof.
  intros Hp. unfold rest_deal_name. rewrite Hp. reflexivity.
Qed.

Lemma deal_node_name (d : upstream_deal) :
  graphql_deal_name (deal_node d) = rest_deal_name (deal_resource d).
Proof.
  unfold graphql_deal_name, rest_deal_name, deal_node, deal_resource.
  destruct (deal_properties d); reflexivity.
Qed.

Lemma deal_node_items (d : upstream_deal) :
  graphql_deal_items (deal_node d) = Ok (map item_resource (deal_items d)).
Proof.
  unfold graphql_deal_items, deal_node.
  destruct (deal_properties d); reflexivity.
Qed.

Lemma rest_items_loop_agrees (tok dname : json) (items : list upstream_item) :
  (forall i, In i items ->
     replies E (LineItemDetails tok (item_id i)) (ok_response (item_resource i))) ->
  forall (acc : list LineItem) (s : state),
    fst (rest_items_loop E tok dname
           (map (fun i => association (item_id i)) items) acc s) =
    graphql_items_loop dname (map item_resource items) acc.
Proof.
  induction items as [| i items IH]; intros Hserve acc s.
  - reflexivity.
  - cbn [map rest_items_loop graphql_items_loop]. unfold_monad.
    change (py_getitem (association (item_id i)) "id") with (Ok (item_id i)).
    cbv beta iota.
    rewrite (Hserve i (or_introl eq_refl) _). reduce_reply.
    rewrite <- records_agree.
    destruct (graphql_record dname (item_resource i)) as [rec | e];
      [| reflexivity].
    apply IH. intros j Hj. apply Hserve. right. exact Hj.
Qed.

Lemma rest_deals_loop_agrees (tok : json) (deals : list upstream_deal) :
  (forall d, In d deals ->
     replies E (DealDetails tok (deal_id d)) (ok_response (deal_resource d)) /\
     replies E (DealLineItems tok (deal_id d))
       (ok_response
          (JObj [("results",
                  JArr (map (fun i => association (item_id i)) (deal_items d)))]))
     /\
     forall i, In i (deal_items d) ->
       replies E (LineItemDetails tok (item_id i))
         (ok_response (item_resource i))) ->
  forall (acc : list LineItem) (s : state),
    fst (rest_deals_loop E tok
           (map (fun d => association (deal_id d)) deals) acc s) =
    graphql_deals_loop (map deal_node deals) acc.
Proof.
  induction deals as [| d deals IH]; intros Hserve acc s.
  - reflexivity.
  - destruct (Hserve d (or_introl eq_refl)) as (Hd & Hl & Hi).
    cbn [map rest_deals_loop graphql_deals_loop]. unfold_monad.
    change (py_getitem (association (deal_id d)) "id") with (Ok (deal_id d)).
    cbv beta iota.
    rewrite (Hd _). reduce_reply. rewrite deal_node_name, deal_node_items.
    destruct (rest_deal_name (deal_resource d)) as [dname | e];
      [| reflexivity].
    rewrite (Hl _). reduce_reply.
    change (rest_results
              (JObj [("results",
                      JArr (map (fun i => association (item_id i))
                              (deal_items d)))]))
      with (Ok (map (fun i => association (item_id i)) (deal_items d))).
    cbv beta iota.
    match goal with
    | |- context [rest_items_loop E tok dname ?l acc ?s0] =>
        pose proof (rest_items_loop_agrees tok dname (deal_items d) Hi acc s0)
          as Hitems;
        destruct (rest_items_loop E tok dname l acc s0) as [r s1]
    end.
    cbn [fst] in Hitems. rewrite <- Hitems.
    destruct r as [acc' | e]; [| reflexivity].
    apply IH. intros d' Hd'. apply Hserve. right. exact Hd'.
Qed.

(** C9: the two strategies build their records by the same rule: the
    same record and the same deal name from the same object, with
    "Unknown Deal", "Unknown Item" and 0 for what is missing; and when
    the structured query and the REST endpoints present the same upstream
    data, the two strategies have the same outcome. *)
Theorem strategies_normalise_alike :
  (forall dname x, graphql_record dname x = rest_record dname x) /\
  (forall x, graphql_deal_name x = rest_deal_name x) /\
  (forall dname fields pf,
     py_get (JObj fields) "properties" (JObj []) = Ok (JObj pf) ->
     rest_record dname (JObj fields) =
       Ok {| deal_name := dname;
             line_item_name :=
               default (JStr "Unknown Item") (dict_lookup "name" pf);
             quantity := default (JNum 0) (dict_lookup "quantity" pf);
             unit_price := default (JNum 0) (dict_lookup "price" pf);
             amount := default (JNum 0) (dict_lookup "amount" pf) |}) /\
  (forall fields pf,
     py_get (JObj fields) "properties" (JObj []) = Ok (JObj pf) ->
     rest_deal_name (JObj fields) =
       Ok (default (JStr "Unknown Deal") (dict_lookup "dealname" pf))) /\
  (forall (tok : json) (cid : string) (deals : list upstream_deal)
          (s s' : state),
     server E (calls s) (GraphqlQuery tok cid) =
       ok_response (graphql_body deals) ->
     rest_serves E tok cid deals ->
     fst (get_company_line_items_graphql E tok cid s) =
       as_conclusive (fst (get_company_line_items_rest E tok cid s'))).
Proof.
  split; [exact records_agree |]. split; [exact deal_names_agree |].
  split; [exact record_defaults |]. split; [exact deal_name_default |].
  intros tok cid deals s s' Hg [Hdeals Hserve].
  assert (fst (get_company_line_items_rest E tok cid s') =
            graphql_deals_loop (map deal_node deals) []) as ->.
  { unfold get_company_line_items_rest. unfold_monad.
    rewrite (Hdeals _). reduce_reply.
    change (rest_results
              (JObj [("results",
                      JArr (map (fun d => association (deal_id d)) deals))]))
      with (Ok (map (fun d => association (deal_id d)) deals)).
    cbv beta iota.
    apply rest_deals_loop_agrees. exact Hserve. }
  unfold get_company_line_items_graphql. unfold_monad.
  rewrite Hg. reduce_reply.
  change (py_in "errors" (graphql_body deals)) with (@Ok bool false).
  change (graphql_deals (graphql_body deals)) with (Ok (map deal_node deals)).
  cbv beta iota.
  destruct (graphql_deals_loop (map deal_node deals) []); reflexivity.
Qed.

End Retrieval.

(** C1 on a CRM without structured queries, where the fallback runs, and
    on an endpoint whose success carries no deals, where it does not. *)
Lemma rest_fallback_witness :
  fetch_line_items crm_env (JStr "a1") "c1" empty_store =
    rest_fallback crm_env (JStr "a1") "c1"
      (sent empty_store [GraphqlQuery (JStr "a1") "c1"]) /\
  fetch_line_items empty_object_env (JStr "a1") "c1" empty_store =
    (Ok (LineItemsJson "c1" []),
     sent empty_store [GraphqlQuery (JStr "a1") "c1"]).
Proof.
  split.
  - apply (rest_fallback_iff_inconclusive crm_env (JStr "a1") "c1" empty_store).
    reflexivity.
  - apply (rest_fallback_iff_inconclusive empty_object_env (JStr "a1") "c1"
             empty_store).
    reflexivity.
Defined.

(** C3 refuted: on a 200 reply with an empty object, where every
    container is absent, the structured query returns the empty list and
    not [None], and no REST request follows. *)
Lemma absent_containers_are_not_inconclusive :
  absent_along deals_path (JObj []) = true /\
  fst (get_company_line_items_graphql empty_object_env (JStr "a1") "c1"
         empty_store) = Ok (Some []) /\
  fst (get_company_line_items_graphql empty_object_env (JStr "a1") "c1"
         empty_store) <> Ok None /\
  new_calls empty_store
    (snd (fetch_line_items empty_object_env (JStr "a1") "c1" empty_store)) =
    [GraphqlQuery (JStr "a1") "c1"].
Proof. repeat split; try reflexivity. discriminate. Qed.

(** The amended C3 on a body without the [company] container. *)
Lemma absent_container_witness :
  get_company_line_items_graphql no_company_env (JStr "a1") "c1" empty_store =
    (Ok (Some []), sent empty_store [GraphqlQuery (JStr "a1") "c1"]) /\
  fetch_line_items no_company_env (JStr "a1") "c1" empty_store =
    (Ok (LineItemsJson "c1" []),
     sent empty_store [GraphqlQuery (JStr "a1") "c1"]).
Proof.
  apply (absent_container_reads_as_empty no_company_env (JStr "a1") "c1"
           empty_store [("data", JObj [("CRM", JObj [])])]);
    reflexivity.
Defined.

(** C7 on the CRM with the deals "A" and "B". *)
Lemma failed_node_witness :
  fst (get_company_line_items_rest crm_env (JStr "a1") "c1" empty_store) =
    Ok [widget_record].
Proof.
  destruct (failed_node_is_skipped crm_env (JStr "a1"))
    as (_ & _ & _ & _ & Hscenario).
  apply (Hscenario "c1" empty_store
           (JObj [("results", JArr [JObj [("id", JStr "A")];
                                    JObj [("id", JStr "B")]])])
           (JObj [("id", JStr "A")]) (JObj [("id", JStr "B")])
           (JStr "A") (JStr "B")
           (JObj [("id", JStr "A");
                  ("properties", JObj [("dealname", JStr "Deal A")])])
           (JObj [("id", JStr "B");
                  ("properties", JObj [("dealname", JStr "Deal B")])])
           (JStr "Deal A") (JStr "Deal B")
           (JObj [("results", JArr [JObj [("id", JStr "L1")]])])
           (JObj [("id", JStr "L1")]) (JStr "L1")
           (JObj [("id", JStr "L1");
                  ("properties", JObj [("name", JStr "Widget");
                                       ("quantity", JStr "2");
                                       ("price", JStr "10.00");
                                       ("amount", JStr "20.00")])])).
  all: try reflexivity.
  all: try (intros h; reflexivity).
  intros h. vm_compute. discriminate.
Defined.

(** C8 refuted: a 200 reply with the body [{"data": null}] makes
    [fetch_line_items] answer with an error, not with a list. *)
Lemma null_data_is_an_error :
  fst (fetch_line_items null_data_env (JStr "a1") "c1" empty_store) =
    Ok (ErrorJson "Failed to fetch line items" 500) /\
  ~ exists l,
      fst (fetch_line_items null_data_env (JStr "a1") "c1" empty_store) =
        Ok (LineItemsJson "c1" l).
Proof.
  split; [reflexivity |]. intros [l Hl]. vm_compute in Hl. discriminate.
Qed.

(** The amended C8 on an upstream that answers 400 to everything. *)
Lemma fetch_never_raises_witness :
  fetch_line_items rejecting_env (JStr "a1") "c1" empty_store =
    (Ok (LineItemsJson "c1" []),
     sent empty_store [GraphqlQuery (JStr "a1") "c1";
                       CompanyDeals (JStr "a1") "c1"]).
Proof.
  destruct (fetch_line_items_never_raises rejecting_env (JStr "a1") "c1"
              empty_store) as (_ & _ & _ & Hempty).
  apply Hempty.
  - vm_compute. discriminate.
  - vm_compute. discriminate.
Defined.

(** C9 on the catalog: both strategies yield the same two records. *)
Lemma strategies_agree_witness :
  fst (get_company_line_items_graphql catalog_env (JStr "a1") "c1" empty_store)
    = as_conclusive
        (fst (get_company_line_items_rest catalog_env (JStr "a1") "c1"
                empty_store)) /\
  fst (get_company_line_items_rest catalog_env (JStr "a1") "c1" empty_store) =
    Ok catalog_records.
Proof.
  split; [| reflexivity].
  destruct (strategies_normalise_alike catalog_env)
    as (_ & _ & _ & _ & Hsame).
  apply (Hsame (JStr "a1") "c1" catalog).
  - reflexivity.
  - split; [intros h; reflexivity |].
    intros d [<- | [<- | []]].
    + split; [intros h; reflexivity |].
      split; [intros h; reflexivity |].
      intros i [<- | [<- | []]]; intros h; reflexivity.
    + split; [intros h; reflexivity |].
      split; [intros h; reflexivity |].
      intros i [].
Defined.

(** * Further properties of the token lifecycle *)

Section TokenLifecycleFrame.

Variable E : env.

Lemma refresh_store_cases (s : state) (portal_id : string) (rt : json) :
  token_storage (snd (refresh_access_token E portal_id rt s)) = token_storage s
  \/ exists t',
       token_storage (snd (refresh_access_token E portal_id rt s)) =
         <[portal_id := t']> (token_storage s).
Proof.
  unfold refresh_access_token. unfold_monad.
  destruct (status_code _ =? 200); [| left; reflexivity].
  destruct (response_json _) as [data |]; [| left; reflexivity].
  destruct (py_getitem data "access_token"); [| left; reflexivity].
  destruct (py_get data "refresh_token" rt); [| left; reflexivity].
  destruct (py_getitem data "expires_in") as [ei |]; [| left; reflexivity].
  destruct (timedelta ei) as [d |]; [| left; reflexivity].
  destruct (datetime_add _ d); [| left; reflexivity].
  destruct (py_get data "scope" _); [| left; reflexivity].
  right. eexists. reflexivity.
Qed.

Lemma resolution_store_cases (s : state) (portal_id : string) :
  token_storage (snd (get_hubspot_access_token E portal_id s)) =
    token_storage s
  \/ (is_Some (token_storage s !! portal_id) /\
      exists t',
        token_storage (snd (get_hubspot_access_token E portal_id s)) =
          <[portal_id := t']> (token_storage s)).
Proof.
  destruct (token_storage s !! portal_id) as [t |] eqn:Hget.
  - destruct (Z.gtb_spec (clock E (calls s)) (expires_at t)) as [Hexp | Hnow].
    + rewrite (expired_resolution E s portal_id t Hget) by lia.
      destruct (py_truthy (refresh_token t)); [| left; reflexivity].
      destruct (refresh_store_cases s portal_id (refresh_token t)) as [H | H];
        [left; exact H | right; split; [eauto | exact H]].
    + left. unfold get_hubspot_access_token. unfold_monad. rewrite Hget.
      destruct (Z.gtb_spec (clock E (calls s)) (expires_at t)); [lia |].
      reflexivity.
  - left. unfold get_hubspot_access_token. unfold_monad. rewrite Hget.
    reflexivity.
Qed.

Lemma resolution_frame (s : state) (portal_id other : string) :
  other <> portal_id ->
  dom (token_storage (snd (get_hubspot_access_token E portal_id s))) =
    dom (token_storage s) /\
  token_storage (snd (get_hubspot_access_token E portal_id s)) !! other =
    token_storage s !! other.
Proof.
  intros Hne.
  destruct (resolution_store_cases s portal_id) as [-> | [Hsome [t' ->]]].
  - split; reflexivity.
  - split.
    + apply dom_insert_lookup_L. exact Hsome.
    + apply lookup_insert_ne. congruence.
Qed.

(** X1: resolving the token of one portal keeps the set of portals that
    have a record, and leaves the record of every other portal as it
    was, whatever the token endpoint answers. *)
Theorem resolution_touches_only_its_portal
    (s : state) (portal_id other : string) :
  other <> portal_id ->
  dom (token_storage (snd (get_hubspot_access_token E portal_id s))) =
    dom (token_storage s) /\
  token_storage (snd (get_hubspot_access_token E portal_id s)) !! other =
    token_storage s !! other.
Proof. apply resolution_frame. Qed.

Lemma unexpired_resolution
    (s : state) (portal_id : string) (t : token_record) :
  token_storage s !! portal_id = Some t ->
  clock E (calls s) <= expires_at t ->
  get_hubspot_access_token E portal_id s = (Ok (access_token t), s).
Proof.
  intros Hget Hnow. unfold get_hubspot_access_token. unfold_monad.
  rewrite Hget.
  destruct (Z.gtb_spec (clock E (calls s)) (expires_at t)); [lia |].
  reflexivity.
Qed.

(** X2: when the 200 reply to a refresh has a [refresh_token] member, its
    value replaces the stored refresh token, whatever it is; and if that
    value is falsy ([null], the empty string), the portal resolves to
    [None] without any request once the new record has expired. *)
Theorem refresh_reply_replaces_refresh_token
    (s s' : state) (portal_id : string) (t : token_record)
    (fields : list (string * json)) (v tok : json) :
  token_storage s !! portal_id = Some t ->
  clock E (calls s) > expires_at t ->
  py_truthy (refresh_token t) = true ->
  server E (calls s) (TokenRefresh (refresh_token t)) =
    ok_response (JObj fields) ->
  dict_lookup "refresh_token" fields = Some v ->
  get_hubspot_access_token E portal_id s = (Ok tok, s') ->
  exists t',
    token_storage s' !! portal_id = Some t' /\
    refresh_token t' = v /\
    (py_truthy v = false ->
     forall later,
       token_storage later = token_storage s' ->
       clock E (calls later) > expires_at t' ->
       get_hubspot_access_token E portal_id later = (Ok JNull, later)).
Proof.
  intros Hget Hexp Hrt Hreply Hv Hrun.
  rewrite (expired_with_refresh_token E s portal_id t Hget Hexp Hrt) in Hrun.
  assert (status_code (server E (calls s) (TokenRefresh (refresh_token t)))
          = 200) as Hst by (rewrite Hreply; reflexivity).
  destruct (refresh_accepted E s s' portal_id (refresh_token t) tok Hst Hrun)
    as (fields' & ei & d & Hbody & _ & _ & _ & ->).
  rewrite Hreply in Hbody. injection Hbody as <-.
  eexists. split; [apply lookup_insert_eq |].
  cbn [refresh_token]. rewrite Hv. split; [reflexivity |].
  intros Hfalsy later Hstore Hlater.
  rewrite (expired_resolution E later portal_id
             {| access_token := tok; refresh_token := v;
                expires_at :=
                  clock E (calls s ++ [TokenRefresh (refresh_token t)]) + d;
                scope := default (JStr EmptyString)
                           (dict_lookup "scope" fields) |}).
  - cbn [refresh_token]. rewrite Hfalsy. reflexivity.
  - rewrite Hstore. cbn [token_storage]. apply lookup_insert_eq.
  - exact Hlater.
Qed.

Lemma raising_refresh_state
    (s s' : state) (portal_id : string) (rt : json) (e : exn) :
  refresh_access_token E portal_id rt s = (Raise e, s') ->
  s' = sent s [TokenRefresh rt].
Proof.
  intros Hrun.
  pose proof (refresh_raise_keeps_store E s s' portal_id rt e Hrun) as Hst.
  pose proof (refresh_calls E s portal_id rt) as Hc.
  rewrite Hrun in Hc. cbn [snd] in Hc.
  destruct s' as [st' c']. cbn [token_storage calls] in *. subst.
  reflexivity.
Qed.

Lemma raising_resolution_state
    (s s' : state) (portal_id : string) (e : exn) :
  get_hubspot_access_token E portal_id s = (Raise e, s') ->
  exists t,
    token_storage s !! portal_id = Some t /\
    clock E (calls s) > expires_at t /\
    py_truthy (refresh_token t) = true /\
    s' = sent s [TokenRefresh (refresh_token t)].
Proof.
  intros Hres.
  destruct (token_storage s !! portal_id) as [t |] eqn:Hget.
  - destruct (Z.gtb_spec (clock E (calls s)) (expires_at t)) as [Hexp | Hnow].
    + rewrite (expired_resolution E s portal_id t Hget) in Hres by lia.
      destruct (py_truthy (refresh_token t)) eqn:Hrt; [| discriminate].
      pose proof (raising_refresh_state s s' portal_id (refresh_token t) e
                    Hres) as Hs.
      exists t. repeat split; auto. lia.
    + rewrite (unexpired_resolution s portal_id t Hget Hnow) in Hres.
      discriminate.
  - assert (get_hubspot_access_token E portal_id s = (Ok JNull, s)) as Hnone
      by (unfold get_hubspot_access_token; unfold_monad; rewrite Hget;
          reflexivity).
    rewrite Hnone in Hres. discriminate.
Qed.

(** X3: a resolution that raises has attempted a refresh: the record had
    expired and had a refresh token, the refresh was the one request
    issued, and the token store is exactly as it was. *)
Theorem raising_resolution_is_atomic
    (s s' : state) (portal_id : string) (e : exn) :
  get_hubspot_access_token E portal_id s = (Raise e, s') ->
  exists t,
    token_storage s !! portal_id = Some t /\
    clock E (calls s) > expires_at t /\
    py_truthy (refresh_token t) = true /\
    s' = sent s [TokenRefresh (refresh_token t)].
Proof.
  intros Hres.
  destruct (raising_resolution_state s s' portal_id e Hres)
    as (t & Hget & Hexp & Hrt & Hs).
  exists t. auto.
Qed.

(** X4: after a resolution that refreshed successfully, the stored
    record carries the returned token, and every later resolution that
    finds this record in the store and reads a clock not past its
    expiry returns the same token and changes nothing: no second
    refresh until the new record expires. *)
Theorem resolution_after_refresh_is_served_from_store
    (s s' : state) (portal_id : string) (t : token_record) (tok : json) :
  token_storage s !! portal_id = Some t ->
  clock E (calls s) > expires_at t ->
  py_truthy (refresh_token t) = true ->
  status_code (server E (calls s) (TokenRefresh (refresh_token t))) = 200 ->
  get_hubspot_access_token E portal_id s = (Ok tok, s') ->
  exists t',
    token_storage s' !! portal_id = Some t' /\
    access_token t' = tok /\
    forall later,
      token_storage later !! portal_id = Some t' ->
      clock E (calls later) <= expires_at t' ->
      get_hubspot_access_token E portal_id later = (Ok tok, later).
Proof.
  intros Hget Hexp Hrt Hst Hrun.
  rewrite (expired_with_refresh_token E s portal_id t Hget Hexp Hrt) in Hrun.
  destruct (refresh_accepted E s s' portal_id (refresh_token t) tok Hst Hrun)
    as (fields & ei & d & _ & _ & _ & _ & ->).
  eexists. split; [apply lookup_insert_eq |]. split; [reflexivity |].
  intros later Hlater Hnow.
  apply (unexpired_resolution later portal_id _ Hlater Hnow).
Qed.

End TokenLifecycleFrame.

(** X1 on two portals: refreshing "42" leaves "7" alone. *)
Lemma resolution_frame_witness :
  dom (token_storage
         (snd (get_hubspot_access_token refreshing_env "42" two_portal_store)))
    = dom (token_storage two_portal_store) /\
  token_storage
    (snd (get_hubspot_access_token refreshing_env "42" two_portal_store))
    !! "7" = Some fresh_record.
Proof.
  apply (resolution_touches_only_its_portal refreshing_env two_portal_store
           "42" "7").
  discriminate.
Defined.

(** X2 on a reply with [refresh_token: null]. *)
Lemma refresh_token_nulled_witness :
  exists t',
    token_storage
      (snd (get_hubspot_access_token nulling_env "42" (store_of stale_record)))
      !! "42" = Some t' /\
    refresh_token t' = JNull.
Proof.
  destruct (refresh_reply_replaces_refresh_token nulling_env
              (store_of stale_record)
              (snd (get_hubspot_access_token nulling_env "42"
                      (store_of stale_record)))
              "42" stale_record
              [("access_token", JStr "a2"); ("refresh_token", JNull);
               ("expires_in", JNum 3600)]
              JNull (JStr "a2"))
    as (t' & Hget & Hrt & _); try reflexivity.
  exists t'. split; assumption.
Defined.

(** X3 on a 200 reply with the body [{}]. *)
Lemma raising_resolution_witness :
  exists t,
    token_storage (store_of stale_record) !! "42" = Some t /\
    clock empty_object_env [] > expires_at t /\
    py_truthy (refresh_token t) = true /\
    snd (get_hubspot_access_token empty_object_env "42"
           (store_of stale_record)) =
      sent (store_of stale_record) [TokenRefresh (refresh_token t)].
Proof.
  apply (raising_resolution_is_atomic empty_object_env (store_of stale_record)
           _ "42" KeyError).
  reflexivity.
Defined.

(** X4 in the refresh scenario of the specification, for a resolution
    twenty minutes and two requests after the refresh. *)
Lemma second_resolution_witness :
  get_hubspot_access_token ticking_env "42"
    (sent (snd (get_hubspot_access_token ticking_env "42"
                  (store_of stale_record)))
       [GraphqlQuery (JStr "a2") "c1"; CompanyDeals (JStr "a2") "c1"])
  = (Ok (JStr "a2"),
     sent (snd (get_hubspot_access_token ticking_env "42"
                  (store_of stale_record)))
       [GraphqlQuery (JStr "a2") "c1"; CompanyDeals (JStr "a2") "c1"]).
Proof.
  destruct (resolution_after_refresh_is_served_from_store ticking_env
              (store_of stale_record)
              (snd (get_hubspot_access_token ticking_env "42"
                      (store_of stale_record)))
              "42" stale_record (JStr "a2"))
    as (t' & Hget & _ & Hlater).
  - reflexivity.
  - reflexivity.
  - reflexivity.
  - reflexivity.
  - reflexivity.
  - vm_compute in Hget. injection Hget as <-.
    apply Hlater; [reflexivity | vm_compute; discriminate].
Defined.

(** * Further properties of the endpoint *)

Section Endpoint.

Variable E : env.


Lemma fetch_keeps_store (tok : json) (cid : string) (s : state) :
  token_storage (snd (fetch_line_items E tok cid s)) = token_storage s.
Proof.
  rewrite fetch_cases. pose proof (graphql_calls E tok cid s) as Hg.
  destruct (get_company_line_items_graphql E tok cid s) as [[[l |] | e] s1];
    cbn [snd] in *; subst s1; try reflexivity.
  unfold rest_fallback. unfold_monad.
  destruct (rest_calls E tok cid (sent s [GraphqlQuery tok cid]))
    as (more & Hst & _).
  destruct (get_company_line_items_rest E tok cid _) as [[l | e] s2];
    cbn [snd] in *; exact Hst.
Qed.

(** The three ways a request that names a portal can go. *)
Lemma endpoint_cases (cid : string) (req : http_request) (p : string)
    (s : state) :
  names_portal req p ->
  (signature_refused E req /\
   get_company_line_items E cid req s =
     (Ok (ErrorJson "Invalid signature" 401), s)) \/
  (signature_raises E req /\
   get_company_line_items E cid req s = (Raise TypeError, s)) \/
  (~ signature_rejected E req /\
   get_company_line_items E cid req s = after_checks E cid p s).
Proof.
  intros [Hp Hne]. unfold get_company_line_items. rewrite Hp.
  pose proof Hne as Hne'. apply String.eqb_neq in Hne'. rewrite Hne'.
  assert ((x ← get_hubspot_access_token E p;
           if negb (py_truthy x)
           then mret (ErrorJson "No valid access token found" 401)
           else fetch_line_items E x cid) s = after_checks E cid p s) as Hgo.
  { unfold after_checks. unfold_monad.
    destruct (get_hubspot_access_token E p s) as [[tok | e] s1];
      [| reflexivity].
    destruct (py_truthy tok); reflexivity. }
  unfold signature_refused, signature_raises, signature_rejected.
  destruct (header_signature req) as [sig |].
  - destruct (String.eqb_spec sig EmptyString) as [-> | Hs].
    + right. right. split.
      * intros (sig' & [= <-] & Hs' & _). contradiction.
      * unfold mbind at 1. unfold M_bind, mret at 1. unfold M_ret.
        exact Hgo.
    + unfold verify_hubspot_signature, compare_digest.
      apply String.eqb_neq in Hs. rewrite Hs. apply String.eqb_neq in Hs.
      cbn [orb].
      destruct (String.eqb_spec (webhook_secret E) EmptyString) as [Hk | Hk].
      * left. split; [exists sig; auto | reflexivity].
      * destruct (String.eqb_spec sig
                    (hmac_sha256_hex E (webhook_secret E) (request_data req)))
          as [Heq | Hdiff].
        -- right. right. split.
           ++ intros (sig' & [= <-] & _ & [Hk' | Hd]); contradiction.
           ++ unfold mbind at 1 2. unfold M_bind, lift, mret at 1.
              unfold M_ret. exact Hgo.
        -- destruct (is_ascii sig) eqn:Hascii.
           ++ left. split; [exists sig; auto | reflexivity].
           ++ right. left. split; [exists sig; auto | reflexivity].
  - right. right. split.
    + intros (sig' & [=] & _).
    + unfold mbind at 1. unfold M_bind, mret at 1. unfold M_ret.
      exact Hgo.
Qed.

(** The endpoint once its two header checks are passed. *)
Lemma endpoint_admitted (cid : string) (req : http_request) (p : string)
    (s : state) :
  names_portal req p ->
  ~ signature_rejected E req ->
  get_company_line_items E cid req s =
    match get_hubspot_access_token E p s with
    | (Ok tok, s1) =>
        if py_truthy tok then fetch_line_items E tok cid s1
        else (Ok (ErrorJson "No valid access token found" 401), s1)
    | (Raise e, s1) => (Raise e, s1)
    end.
Proof.
  intros Hp Hacc.
  destruct (endpoint_cases cid req p s Hp)
    as [[(sig & Hsig & Hs & Hr) _] | [[(sig & Hsig & Hs & Hk & Hd & _) _]
                                     | [_ Hgo]]].
  - exfalso. apply Hacc. exists sig. split; [exact Hsig |].
    split; [exact Hs |]. destruct Hr as [Hk | [Hd _]]; auto.
  - exfalso. apply Hacc. exists sig. auto.
  - exact Hgo.
Qed.


Lemma unnamed_portal (cid : string) (req : http_request) (s : state) :
  (forall p, ~ names_portal req p) ->
  get_company_line_items E cid req s =
    (Ok (ErrorJson "Portal ID not provided" 400), s).
Proof.
  intros Hno. unfold get_company_line_items.
  destruct (header_portal_id req) as [p |] eqn:Hp; [| reflexivity].
  destruct (String.eqb_spec p EmptyString) as [-> | Hne]; [reflexivity |].
  exfalso. apply (Hno p). split; assumption.
Qed.

Lemma names_portal_dec (req : http_request) :
  (exists p, names_portal req p) \/ (forall p, ~ names_portal req p).
Proof.
  unfold names_portal. destruct (header_portal_id req) as [p |].
  - destruct (String.eqb_spec p EmptyString) as [-> | Hne].
    + right. intros q [[= <-] Hq]. contradiction.
    + left. exists p. auto.
  - right. intros q [[=] _].
Qed.


(** X6: a request without a signature, or with an empty one, is never
    verified: the answer and the final state are the same under any
    digest function and any webhook secret. *)
Theorem unsigned_request_is_not_verified
    (cid : string) (req : http_request) (s : state)
    (digest : string -> string -> string) (secret : string) :
  header_signature req = None \/ header_signature req = Some EmptyString ->
  get_company_line_items (with_signing E digest secret) cid req s =
    get_company_line_items E cid req s.
Proof.
  intros Hsig. unfold get_company_line_items.
  destruct (header_portal_id req) as [p |]; [| reflexivity].
  destruct (String.eqb p EmptyString); [reflexivity |].
  destruct Hsig as [-> | ->]; reflexivity.
Qed.

(** X7: a request for one portal keeps the set of portals that have a
    record and leaves the record of every portal it does not name as it
    was. *)
Theorem endpoint_touches_only_its_portal
    (cid : string) (req : http_request) (s : state) (other : string) :
  header_portal_id req <> Some other ->
  dom (token_storage (snd (get_company_line_items E cid req s))) =
    dom (token_storage s) /\
  token_storage (snd (get_company_line_items E cid req s)) !! other =
    token_storage s !! other.
Proof.
  intros Hother.
  assert (snd (get_company_line_items E cid req s) = s \/
          exists p, header_portal_id req = Some p /\
            token_storage (snd (get_company_line_items E cid req s)) =
            token_storage (snd (get_hubspot_access_token E p s))) as Hcases.
  { destruct (names_portal_dec req) as [[p Hp] | Hno].
    - destruct (endpoint_cases cid req p s Hp)
        as [[_ ->] | [[_ ->] | [_ ->]]]; [left; reflexivity .. |].
      right. exists p. split; [exact (proj1 Hp) |].
      unfold after_checks.
      destruct (get_hubspot_access_token E p s) as [[tok | e] s1];
        [| reflexivity].
      destruct (py_truthy tok); [| reflexivity].
      cbn [snd]. apply fetch_keeps_store.
    - left. rewrite (unnamed_portal cid req s Hno). reflexivity. }
  destruct Hcases as [-> | (p & Hp & ->)]; [split; reflexivity |].
  apply resolution_frame. congruence.
Qed.


(** X9: a request that passes the header checks for a portal whose
    credential has not expired is answered by [fetch_line_items] with the
    stored access token, from the unchanged state; unless that token is
    falsy (the empty string, [None]), which is answered with the 401 of a
    missing token. *)
Theorem endpoint_with_unexpired_credential
    (cid : string) (req : http_request) (p : string) (s : state)
    (t : token_record) :
  names_portal req p ->
  ~ signature_rejected E req ->
  token_storage s !! p = Some t ->
  clock E (calls s) <= expires_at t ->
  get_company_line_items E cid req s =
    if py_truthy (access_token t)
    then fetch_line_items E (access_token t) cid s
    else (Ok (ErrorJson "No valid access token found" 401), s).
Proof.
  intros Hp Hacc Hget Hnow.
  rewrite (endpoint_admitted cid req p s Hp Hacc).
  rewrite (unexpired_resolution E s p t Hget Hnow). reflexivity.
Qed.

End Endpoint.


(** X6 on a request without signature. *)
Lemma unsigned_request_witness :
  get_company_line_items
    (with_signing crm_env (fun secret payload => "digest") "secret")
    "c1" plain_request (store_of fresh_record) =
  get_company_line_items crm_env "c1" plain_request (store_of fresh_record).
Proof.
  apply (unsigned_request_is_not_verified crm_env "c1" plain_request
           (store_of fresh_record)).
  left. reflexivity.
Defined.

(** X7 on two portals: a request for "42" refreshes it and leaves "7". *)
Lemma endpoint_frame_witness :
  dom (token_storage
         (snd (get_company_line_items refreshing_env "c1" plain_request
                 two_portal_store))) = dom (token_storage two_portal_store) /\
  token_storage
    (snd (get_company_line_items refreshing_env "c1" plain_request
            two_portal_store)) !! "7" = Some fresh_record.
Proof.
  apply (endpoint_touches_only_its_portal refreshing_env "c1" plain_request
           two_portal_store "7").
  discriminate.
Defined.


(** X9 on a valid credential, and on one whose access token is empty. *)
Lemma unexpired_credential_witness :
  get_company_line_items crm_env "c1" plain_request (store_of fresh_record) =
    fetch_line_items crm_env (JStr "a1") "c1" (store_of fresh_record) /\
  get_company_line_items crm_env "c1" plain_request
    (store_of falsy_token_record) =
    (Ok (ErrorJson "No valid access token found" 401),
     store_of falsy_token_record).
Proof.
  split.
  - apply (endpoint_with_unexpired_credential crm_env "c1" plain_request "42"
             (store_of fresh_record) fresh_record).
    + split; [reflexivity | discriminate].
    + intros (sig & Hsig & _). discriminate.
    + reflexivity.
    + vm_compute. discriminate.
  - apply (endpoint_with_unexpired_credential crm_env "c1" plain_request "42"
             (store_of falsy_token_record) falsy_token_record).
    + split; [reflexivity | discriminate].
    + intros (sig & Hsig & _). discriminate.
    + reflexivity.
    + vm_compute. discriminate.
Defined.

(** * Further properties of the retrieval *)

Section RetrievalFrame.

Variable E : env.

Lemma sent_nil (s : state) : sent s [] = s.
Proof. destruct s. unfold sent. cbn. rewrite app_nil_r. reflexivity. Qed.

Lemma sent_sent (s : state) (l1 l2 : list request) :
  sent (sent s l1) l2 = sent s (l1 ++ l2).
Proof. unfold sent. cbn. rewrite app_assoc. reflexivity. Qed.

Lemma rest_frame_for_refl {A} (tok : json) (s : state) (r : result A) :
  rest_frame_for tok s (r, s).
Proof. exists []. cbn. rewrite sent_nil. auto. Qed.

Lemma rest_frame_for_step {A} (tok : json) (s : state) (q : request)
    (out : result A * state) :
  is_rest_request q = true -> carries tok q ->
  rest_frame_for tok (sent s [q]) out ->
  rest_frame_for tok s out.
Proof.
  intros Hq Hc (new & Hs & Hall). exists (q :: new).
  rewrite Hs, sent_sent. split; [reflexivity |].
  constructor; auto.
Qed.

Lemma rest_frame_for_trans {A B} (tok : json) (s s' : state) (r : result A)
    (out : result B * state) :
  rest_frame_for tok s (r, s') -> rest_frame_for tok s' out ->
  rest_frame_for tok s out.
Proof.
  intros (n1 & Hs1 & Ha1) (n2 & Hs2 & Ha2). exists (n1 ++ n2).
  cbn [snd] in *. rewrite Hs2, Hs1, sent_sent. split; [reflexivity |].
  apply Forall_app. auto.
Qed.

Lemma rest_items_loop_frame_for (tok dname : json) (l : list json) :
  forall (acc : list LineItem) (s : state),
    rest_frame_for tok s (rest_items_loop E tok dname l acc s).
Proof.
  induction l as [| a l IH]; intros acc s.
  - apply rest_frame_for_refl.
  - cbn [rest_items_loop]. unfold_monad.
    destruct (py_getitem a "id") as [id |]; [| apply rest_frame_for_refl].
    apply (rest_frame_for_step tok s (LineItemDetails tok id));
      [reflexivity | reflexivity |].
    unfold sent at 1.
    destruct (negb _); [apply IH |].
    destruct (response_json _) as [data |]; [| apply rest_frame_for_refl].
    destruct (rest_record dname data);
      [apply IH | apply rest_frame_for_refl].
Qed.

Lemma rest_deals_loop_frame_for (tok : json) (l : list json) :
  forall (acc : list LineItem) (s : state),
    rest_frame_for tok s (rest_deals_loop E tok l acc s).
Proof.
  induction l as [| a l IH]; intros acc s.
  - apply rest_frame_for_refl.
  - cbn [rest_deals_loop]. unfold_monad.
    destruct (py_getitem a "id") as [id |]; [| apply rest_frame_for_refl].
    apply (rest_frame_for_step tok s (DealDetails tok id));
      [reflexivity | reflexivity |].
    unfold sent at 1.
    destruct (negb _); [apply IH |].
    destruct (response_json _) as [data |]; [| apply rest_frame_for_refl].
    destruct (rest_deal_name data) as [dname |];
      [| apply rest_frame_for_refl].
    match goal with
    | |- rest_frame_for tok ?s0 _ =>
        apply (rest_frame_for_step tok s0 (DealLineItems tok id));
          [reflexivity | reflexivity |]
    end.
    unfold sent at 1. cbn [token_storage calls].
    destruct (negb _); [apply IH |].
    destruct (response_json _) as [items |]; [| apply rest_frame_for_refl].
    destruct (rest_results items) as [assocs |];
      [| apply rest_frame_for_refl].
    match goal with
    | |- rest_frame_for tok ?s0 _ =>
        pose proof (rest_items_loop_frame_for tok dname assocs acc s0)
          as Hitems
    end.
    destruct (rest_items_loop E tok dname assocs acc _) as [[acc' | e] s1].
    + eapply rest_frame_for_trans; [exact Hitems | apply IH].
    + exact Hitems.
Qed.

Lemma rest_frame_for_top (tok : json) (cid : string) (s : state) :
  rest_frame_for tok (sent s [CompanyDeals tok cid])
    (get_company_line_items_rest E tok cid s).
Proof.
  unfold get_company_line_items_rest. unfold_monad. unfold sent at 1.
  destruct (negb _); [apply rest_frame_for_refl |].
  destruct (response_json _) as [data |]; [| apply rest_frame_for_refl].
  destruct (rest_results data) as [assocs |]; [| apply rest_frame_for_refl].
  apply rest_deals_loop_frame_for.
Qed.

(** X10: whatever the upstream answers, [fetch_line_items] leaves the
    token store as it was and only appends to the request log: first the
    structured query, then REST requests only; every request carries the
    access token it was given, and none goes to the token endpoint. *)
Theorem fetch_line_items_frame (tok : json) (cid : string) (s : state) :
  exists more,
    snd (fetch_line_items E tok cid s) =
      sent s (GraphqlQuery tok cid :: more) /\
    Forall (fun r => is_rest_request r = true /\ carries tok r) more.
Proof.
  rewrite fetch_cases. pose proof (graphql_calls E tok cid s) as Hg.
  destruct (get_company_line_items_graphql E tok cid s) as [[[l |] | e] s1];
    cbn [snd] in *; subst s1; try (exists []; split; [reflexivity | constructor]).
  destruct (rest_frame_for_top tok cid (sent s [GraphqlQuery tok cid]))
    as (new & Hs & Hall).
  exists (CompanyDeals tok cid :: new). split.
  - unfold rest_fallback. unfold_monad.
    destruct (get_company_line_items_rest E tok cid _) as [[l | e] s2];
      cbn [snd] in *; rewrite Hs, !sent_sent; reflexivity.
  - constructor; [split; reflexivity | exact Hall].
Qed.

Lemma prefix_app (a b : string) : String.prefix a (a ++ b)%string = true.
Proof.
  induction a as [| c a IH].
  - destruct b; reflexivity.
  - change (String c a ++ b)%string with (String c (a ++ b)%string).
    cbn [String.prefix].
    destruct (Ascii.ascii_dec c c); [exact IH | contradiction].
Qed.

Lemma str_contains_app (needle before after : string) :
  str_contains needle (before ++ needle ++ after)%string = true.
Proof.
  induction before as [| c before IH].
  - change (EmptyString ++ needle ++ after)%string
      with (needle ++ after)%string.
    destruct (needle ++ after)%string eqn:Heq;
      cbn [str_contains]; rewrite <- Heq, prefix_app; reflexivity.
  - change (String c before ++ needle ++ after)%string
      with (String c (before ++ needle ++ after)%string).
    cbn [str_contains].
    destruct (String.prefix needle _); [reflexivity | exact IH].
Qed.

Lemma mentions_errors_in (data : json) :
  mentions_errors data -> py_in "errors" data = Ok true.
Proof.
  intros [fields v Hv | items Hin | before after]; unfold py_in.
  - rewrite Hv. reflexivity.
  - f_equal. apply existsb_exists. exists (JStr "errors").
    split; [exact Hin | reflexivity].
  - rewrite str_contains_app. reflexivity.
Qed.

(** X11: on a 200 reply in whose body [in] finds "errors", the data is
    never read.  When the body is an object with an [errors] member, of
    any value, an empty list or [null] included, the structured query is
    inconclusive and the REST fallback runs.  When the body is a list
    holding the string "errors", or a string containing it, reading
    [data['errors']] for the log message raises [TypeError]:
    [fetch_line_items] answers with its 500 error and makes no REST
    request. *)
Theorem errors_mention_outcome
    (tok : json) (cid : string) (s : state) (data : json) :
  server E (calls s) (GraphqlQuery tok cid) = ok_response data ->
  mentions_errors data ->
  match data with
  | JObj _ =>
      get_company_line_items_graphql E tok cid s =
        (Ok None, sent s [GraphqlQuery tok cid]) /\
      fetch_line_items E tok cid s =
        rest_fallback E tok cid (sent s [GraphqlQuery tok cid])
  | _ =>
      get_company_line_items_graphql E tok cid s =
        (Raise TypeError, sent s [GraphqlQuery tok cid]) /\
      fetch_line_items E tok cid s =
        (Ok (ErrorJson "Failed to fetch line items" 500),
         sent s [GraphqlQuery tok cid])
  end.
Proof.
  intros Hreply Herr.
  assert (get_company_line_items_graphql E tok cid s =
            (match py_getitem data "errors" with
             | Ok _ => Ok None
             | Raise e => Raise e
             end, sent s [GraphqlQuery tok cid])) as Hg.
  { unfold get_company_line_items_graphql. unfold_monad.
    rewrite Hreply. reduce_reply.
    rewrite (mentions_errors_in data Herr).
    destruct (py_getitem data "errors"); reflexivity. }
  rewrite fetch_cases, Hg. unfold py_getitem.
  destruct Herr as [fields v Hv | items Hin | before after].
  - rewrite Hv. split; reflexivity.
  - split; reflexivity.
  - split; reflexivity.
Qed.

Lemma graphql_deals_non_object (data : json) :
  hits_non_object deals_path data = true ->
  graphql_deals data = Raise AttributeError.
Proof.
  unfold deals_path, graphql_deals. unfold_monad.
  destruct data as [| | | | | f0]; try reflexivity. cbn.
  destruct (dict_lookup "data" f0) as [[| | | | | f1] |];
    cbn; try discriminate; try reflexivity.
  destruct (dict_lookup "CRM" f1) as [[| | | | | f2] |];
    cbn; try discriminate; try reflexivity.
  destruct (dict_lookup "company" f2) as [[| | | | | f3] |];
    cbn; try discriminate; try reflexivity.
  destruct (dict_lookup "associations" f3) as [[| | | | | f4] |];
    cbn; try discriminate; try reflexivity.
  destruct (dict_lookup "deals" f4) as [[| | | | | f5] |];
    cbn; try discriminate; try reflexivity.
  destruct (dict_lookup "items" f5) as [v |];
    cbn; try discriminate; try reflexivity.
Qed.

(** X12: a 200 reply whose body cannot be read makes the structured
    query raise, and [fetch_line_items] answer with its 500 error and no
    REST request: [JSONDecodeError] when the body is not JSON,
    [TypeError] at the [errors] test when it is [null], a boolean or a
    number, and [AttributeError] when [errors] is not found in it and the
    body itself, or a container present on the way to the deals, is not
    an object. *)
Theorem unreadable_body_is_an_error
    (tok : json) (cid : string) (s : state) (e : exn) :
  status_code (server E (calls s) (GraphqlQuery tok cid)) = 200 ->
  unreadable (body (server E (calls s) (GraphqlQuery tok cid))) e ->
  get_company_line_items_graphql E tok cid s =
    (Raise e, sent s [GraphqlQuery tok cid]) /\
  fetch_line_items E tok cid s =
    (Ok (ErrorJson "Failed to fetch line items" 500),
     sent s [GraphqlQuery tok cid]).
Proof.
  intros Hst Hbad.
  assert (get_company_line_items_graphql E tok cid s =
            (Raise e, sent s [GraphqlQuery tok cid])) as Hg.
  { unfold get_company_line_items_graphql. unfold_monad.
    rewrite Hst. cbn [Z.eqb Pos.eqb negb]. unfold response_json.
    destruct Hbad as [| data Hscalar | data Herr Hhit].
    - reflexivity.
    - destruct data; try discriminate; reflexivity.
    - rewrite Herr. rewrite (graphql_deals_non_object data Hhit).
      reflexivity. }
  split; [exact Hg |]. rewrite fetch_cases, Hg. reflexivity.
Qed.

End RetrievalFrame.

Section Flattening.

Variable E : env.

Lemma record_canonical (dname : json) (i : upstream_item) :
  properties_ok (item_properties i) = true ->
  graphql_record dname (item_resource i) = Ok (canonical_record dname i).
Proof.
  unfold item_resource, canonical_record.
  destruct (item_properties i) as [[| | | | | fields] |];
    try discriminate; reflexivity.
Qed.

Lemma deal_name_canonical (d : upstream_deal) :
  properties_ok (deal_properties d) = true ->
  rest_deal_name (deal_resource d) = Ok (canonical_deal_name d).
Proof.
  unfold deal_resource, canonical_deal_name.
  destruct (deal_properties d) as [[| | | | | fields] |];
    try discriminate; reflexivity.
Qed.

Lemma graphql_items_loop_canonical (dname : json)
    (items : list upstream_item) :
  Forall (fun i => properties_ok (item_properties i) = true) items ->
  forall acc,
    graphql_items_loop dname (map item_resource items) acc =
      Ok (acc ++ map (canonical_record dname) items).
Proof.
  induction 1 as [| i items Hi _ IH]; intros acc.
  - cbn. rewrite app_nil_r. reflexivity.
  - cbn [map graphql_items_loop]. unfold mbind, result_bind.
    rewrite (record_canonical dname i Hi), IH, <- app_assoc. reflexivity.
Qed.

Lemma graphql_deals_loop_canonical (deals : list upstream_deal) :
  well_formed deals ->
  forall acc,
    graphql_deals_loop (map deal_node deals) acc =
      Ok (acc ++ canonical_records deals).
Proof.
  induction 1 as [| d deals [Hd Hitems] _ IH]; intros acc.
  - cbn. rewrite app_nil_r. reflexivity.
  - cbn [map graphql_deals_loop]. unfold mbind, result_bind.
    rewrite deal_node_name, (deal_name_canonical d Hd), deal_node_items.
    rewrite (graphql_items_loop_canonical _ _ Hitems), IH.
    unfold canonical_records. cbn [flat_map]. rewrite app_assoc.
    reflexivity.
Qed.

(** X13: on a 200 reply that presents upstream data whose [properties]
    members, where present, are objects, the structured query returns one
    record per line item, deal by deal and item by item in the order of
    the reply, each with the name of its deal and the defaults for what
    is missing. *)
Theorem graphql_flattens_in_order
    (tok : json) (cid : string) (s : state) (deals : list upstream_deal) :
  server E (calls s) (GraphqlQuery tok cid) =
    ok_response (graphql_body deals) ->
  well_formed deals ->
  get_company_line_items_graphql E tok cid s =
    (Ok (Some (canonical_records deals)), sent s [GraphqlQuery tok cid]) /\
  length (canonical_records deals) =
    list_sum (map (fun d => length (deal_items d)) deals).
Proof.
  intros Hreply Hwf. split.
  - unfold get_company_line_items_graphql. unfold_monad.
    rewrite Hreply. reduce_reply.
    change (py_in "errors" (graphql_body deals)) with (@Ok bool false).
    change (graphql_deals (graphql_body deals))
      with (Ok (map deal_node deals)).
    cbv beta iota.
    rewrite (graphql_deals_loop_canonical deals Hwf []). reflexivity.
  - clear. unfold canonical_records.
    induction deals as [| d deals IH]; [reflexivity |].
    cbn [flat_map map list_sum]. rewrite length_app, length_map, IH.
    reflexivity.
Qed.

Lemma rest_items_loop_canonical (tok dname : json)
    (items : list upstream_item) :
  (forall i, In i items ->
     replies E (LineItemDetails tok (item_id i))
       (ok_response (item_resource i))) ->
  Forall (fun i => properties_ok (item_properties i) = true) items ->
  forall (acc : list LineItem) (s : state),
    rest_items_loop E tok dname
      (map (fun i => association (item_id i)) items) acc s =
    (Ok (acc ++ map (canonical_record dname) items),
     sent s (map (fun i => LineItemDetails tok (item_id i)) items)).
Proof.
  intros Hserve Hok. revert Hserve.
  induction Hok as [| i items Hi _ IH]; intros Hserve acc s.
  - cbn. rewrite app_nil_r, sent_nil. reflexivity.
  - cbn [map rest_items_loop]. unfold_monad.
    change (py_getitem (association (item_id i)) "id") with (Ok (item_id i)).
    cbv beta iota.
    rewrite (Hserve i (or_introl eq_refl) _). reduce_reply.
    rewrite <- records_agree, (record_canonical dname i Hi).
    rewrite IH by (intros j Hj; apply Hserve; right; exact Hj).
    fold (sent s [LineItemDetails tok (item_id i)]).
    rewrite sent_sent, <- app_assoc. reflexivity.
Qed.

Lemma rest_deals_loop_canonical (tok : json) (deals : list upstream_deal) :
  (forall d, In d deals ->
     replies E (DealDetails tok (deal_id d)) (ok_response (deal_resource d)) /\
     replies E (DealLineItems tok (deal_id d))
       (ok_response
          (JObj [("results",
                  JArr (map (fun i => association (item_id i)) (deal_items d)))]))
     /\
     forall i, In i (deal_items d) ->
       replies E (LineItemDetails tok (item_id i))
         (ok_response (item_resource i))) ->
  well_formed deals ->
  forall (acc : list LineItem) (s : state),
    rest_deals_loop E tok
      (map (fun d => association (deal_id d)) deals) acc s =
    (Ok (acc ++ canonical_records deals),
     sent s (flat_map (deal_trace tok) deals)).
Proof.
  intros Hserve Hwf. revert Hserve.
  induction Hwf as [| d deals [Hd Hitems] _ IH]; intros Hserve acc s.
  - cbn. rewrite app_nil_r, sent_nil. reflexivity.
  - destruct (Hserve d (or_introl eq_refl)) as (Hdet & Hl & Hi).
    cbn [map rest_deals_loop]. unfold_monad.
    change (py_getitem (association (deal_id d)) "id") with (Ok (deal_id d)).
    cbv beta iota.
    rewrite (Hdet _). reduce_reply. rewrite (deal_name_canonical d Hd).
    rewrite (Hl _). reduce_reply.
    change (rest_results
              (JObj [("results",
                      JArr (map (fun i => association (item_id i))
                              (deal_items d)))]))
      with (Ok (map (fun i => association (item_id i)) (deal_items d))).
    cbv beta iota.
    rewrite (rest_items_loop_canonical tok (canonical_deal_name d)
               (deal_items d) Hi Hitems).
    rewrite IH by (intros d' Hd'; apply Hserve; right; exact Hd').
    unfold canonical_records. cbn [flat_map]. rewrite app_assoc.
    f_equal. unfold sent, deal_trace. cbn [token_storage calls].
    rewrite <- !app_assoc. reflexivity.
Qed.

(** X14: when the REST endpoints serve such upstream data, the traversal
    returns the same records in the same order, and its requests are, in
    order: the listing of the deals, then for each deal its details, the
    listing of its line items and the details of each line item; one
    request plus two per deal plus one per line item. *)
Theorem rest_traverses_in_order
    (tok : json) (cid : string) (s : state) (deals : list upstream_deal) :
  rest_serves E tok cid deals ->
  well_formed deals ->
  get_company_line_items_rest E tok cid s =
    (Ok (canonical_records deals), sent s (rest_trace tok cid deals)) /\
  length (rest_trace tok cid deals) =
    (1 + 2 * length deals +
     list_sum (map (fun d => length (deal_items d)) deals))%nat.
Proof.
  intros [Hdeals Hserve] Hwf. split.
  - unfold get_company_line_items_rest. unfold_monad.
    rewrite (Hdeals _). reduce_reply.
    change (rest_results
              (JObj [("results",
                      JArr (map (fun d => association (deal_id d)) deals))]))
      with (Ok (map (fun d => association (deal_id d)) deals)).
    cbv beta iota.
    rewrite (rest_deals_loop_canonical tok deals Hserve Hwf).
    fold (sent s [CompanyDeals tok cid]). rewrite sent_sent. reflexivity.
  - clear. unfold rest_trace. cbn [length].
    assert (length (flat_map (deal_trace tok) deals) =
            (2 * length deals +
             list_sum (map (fun d => length (deal_items d)) deals))%nat)
      as ->; [| lia].
    induction deals as [| d deals IH]; [reflexivity |].
    cbn [flat_map map length]. unfold deal_trace at 1.
    rewrite length_app. cbn [length]. rewrite length_map, IH.
    change (list_sum (length (deal_items d) ::
                      map (fun d => length (deal_items d)) deals))
      with (length (deal_items d) +
            list_sum (map (fun d => length (deal_items d)) deals))%nat.
    lia.
Qed.

(** X15: when the listing of the company's deals fails by status, or
    succeeds with an object that has no [results] member or an empty
    one, the traversal returns the empty list after that one request. *)
Theorem rest_without_deals_is_empty
    (tok : json) (cid : string) (s : state) :
  status_code (server E (calls s) (CompanyDeals tok cid)) <> 200 \/
  (exists fields,
     server E (calls s) (CompanyDeals tok cid) = ok_response (JObj fields) /\
     (dict_lookup "results" fields = None \/
      dict_lookup "results" fields = Some (JArr []))) ->
  get_company_line_items_rest E tok cid s =
    (Ok [], sent s [CompanyDeals tok cid]).
Proof.
  intros [Hst | (fields & Hreply & Hres)];
    unfold get_company_line_items_rest; unfold_monad.
  - destruct (Z.eqb_spec
                (status_code (server E (calls s) (CompanyDeals tok cid))) 200);
      [contradiction | reflexivity].
  - rewrite Hreply. reduce_reply. unfold rest_results, py_get.
    unfold mbind, result_bind. destruct Hres as [-> | ->]; reflexivity.
Qed.

End Flattening.

(** X11 on a reply with data and an empty error list, where the fallback
    runs, and on the body ["errors"], which is answered with the error. *)
Lemma errors_mention_witness :
  (get_company_line_items_graphql empty_errors_env (JStr "a1") "c1" empty_store
     = (Ok None, sent empty_store [GraphqlQuery (JStr "a1") "c1"]) /\
   fetch_line_items empty_errors_env (JStr "a1") "c1" empty_store =
     rest_fallback empty_errors_env (JStr "a1") "c1"
       (sent empty_store [GraphqlQuery (JStr "a1") "c1"])) /\
  (get_company_line_items_graphql errors_list_env (JStr "a1") "c1" empty_store
     = (Raise TypeError, sent empty_store [GraphqlQuery (JStr "a1") "c1"]) /\
   fetch_line_items errors_list_env (JStr "a1") "c1" empty_store =
     (Ok (ErrorJson "Failed to fetch line items" 500),
      sent empty_store [GraphqlQuery (JStr "a1") "c1"])).
Proof.
  split.
  - apply (errors_mention_outcome empty_errors_env (JStr "a1") "c1"
             empty_store
             (JObj [("data", graphql_body catalog); ("errors", JArr [])])).
    + reflexivity.
    + apply (errors_member _ (JArr [])). reflexivity.
  - apply (errors_mention_outcome errors_list_env (JStr "a1") "c1"
             empty_store (JArr [JStr "errors"])).
    + reflexivity.
    + apply errors_element. left. reflexivity.
Defined.

(** X12 on the reply [{"data": null}] and on the reply [null]. *)
Lemma unreadable_body_witness :
  (get_company_line_items_graphql null_data_env (JStr "a1") "c1" empty_store =
     (Raise AttributeError,
      sent empty_store [GraphqlQuery (JStr "a1") "c1"]) /\
   fetch_line_items null_data_env (JStr "a1") "c1" empty_store =
     (Ok (ErrorJson "Failed to fetch line items" 500),
      sent empty_store [GraphqlQuery (JStr "a1") "c1"])) /\
  (get_company_line_items_graphql null_body_env (JStr "a1") "c1" empty_store =
     (Raise TypeError, sent empty_store [GraphqlQuery (JStr "a1") "c1"]) /\
   fetch_line_items null_body_env (JStr "a1") "c1" empty_store =
     (Ok (ErrorJson "Failed to fetch line items" 500),
      sent empty_store [GraphqlQuery (JStr "a1") "c1"])).
Proof.
  split.
  - apply (unreadable_body_is_an_error null_data_env (JStr "a1") "c1"
             empty_store AttributeError).
    + reflexivity.
    + apply blocked_container; reflexivity.
  - apply (unreadable_body_is_an_error null_body_env (JStr "a1") "c1"
             empty_store TypeError).
    + reflexivity.
    + apply scalar_body. reflexivity.
Defined.

Lemma catalog_well_formed : well_formed catalog.
Proof.
  repeat constructor.
Qed.

Lemma catalog_served : rest_serves catalog_env (JStr "a1") "c1" catalog.
Proof.
  split; [intros h; reflexivity |].
  intros d [<- | [<- | []]].
  - split; [intros h; reflexivity |].
    split; [intros h; reflexivity |].
    intros i [<- | [<- | []]]; intros h; reflexivity.
  - split; [intros h; reflexivity |].
    split; [intros h; reflexivity |].
    intros i [].
Qed.

(** X13 on the catalog. *)
Lemma graphql_flattens_witness :
  get_company_line_items_graphql catalog_env (JStr "a1") "c1" empty_store =
    (Ok (Some catalog_records),
     sent empty_store [GraphqlQuery (JStr "a1") "c1"]) /\
  length catalog_records = 2%nat.
Proof.
  apply (graphql_flattens_in_order catalog_env (JStr "a1") "c1" empty_store
           catalog).
  - reflexivity.
  - exact catalog_well_formed.
Defined.

(** X14 on the catalog: seven requests for two deals and two line items. *)
Lemma rest_traverses_witness :
  get_company_line_items_rest catalog_env (JStr "a1") "c1" empty_store =
    (Ok catalog_records,
     sent empty_store
       [CompanyDeals (JStr "a1") "c1";
        DealDetails (JStr "a1") (JStr "D1");
        DealLineItems (JStr "a1") (JStr "D1");
        LineItemDetails (JStr "a1") (JStr "I1");
        LineItemDetails (JStr "a1") (JStr "I2");
        DealDetails (JStr "a1") (JStr "D2");
        DealLineItems (JStr "a1") (JStr "D2")]) /\
  length (rest_trace (JStr "a1") "c1" catalog) = 7%nat.
Proof.
  apply (rest_traverses_in_order catalog_env (JStr "a1") "c1" empty_store
           catalog).
  - exact catalog_served.
  - exact catalog_well_formed.
Defined.

(** X15 on an upstream that answers 400 to everything. *)
Lemma rest_without_deals_witness :
  get_company_line_items_rest rejecting_env (JStr "a1") "c1" empty_store =
    (Ok [], sent empty_store [CompanyDeals (JStr "a1") "c1"]).
Proof.
  apply (rest_without_deals_is_empty rejecting_env (JStr "a1") "c1"
           empty_store).
  left. vm_compute. discriminate.
Defined.

(** * Properties of the OAuth callback *)

Ltac unfold_oauth :=
  unfold mbind, OM_bind, mret, OM_ret, olift, oauth_now, oauth_call,
    storage_put.

Lemma dict_get_set (k : portal_key) (t : token_record) (d : token_dict) :
  dict_get k (dict_set k t d) = Some t.
Proof.
  destruct k; cbn; [reflexivity | apply lookup_insert_eq ..].
Qed.

Lemma dict_get_set_ne (k k' : portal_key) (t : token_record) (d : token_dict) :
  k <> k' -> dict_get k' (dict_set k t d) = dict_get k' d.
Proof.
  intros Hne. destruct k, k'; cbn; try reflexivity; try congruence;
    apply lookup_insert_ne; congruence.
Qed.

Section CallbackProperties.

Variable O : oauth_env.

(** The store after the callback: as it was, or with one record put under
    the key of the [hub_id] that a successful callback reports. *)
Lemma callback_store_cases (code : option string) (s : oauth_state) :
  (storage (snd (oauth_callback O code s)) = storage s /\
   forall p a, fst (oauth_callback O code s) <> Ok (OAuthSuccessful p a)) \/
  exists p a k t,
    fst (oauth_callback O code s) = Ok (OAuthSuccessful p a) /\
    py_hash p = Ok k /\
    access_token t = a /\
    storage (snd (oauth_callback O code s)) = dict_set k t (storage s).
Proof.
  unfold oauth_callback.
  destruct code as [code |]; [| left; split; [reflexivity | discriminate]].
  destruct (String.eqb code EmptyString);
    [left; split; [reflexivity | discriminate] |].
  unfold_oauth.
  destruct (negb (status_code (oauth_server O (oauth_calls s)
                                 (CodeExchange code)) =? 200));
    [left; split; [reflexivity | discriminate] |].
  destruct (response_json _) as [token_data |];
    [| left; split; [reflexivity | discriminate]].
  destruct (py_getitem token_data "access_token") as [access |];
    [| left; split; [reflexivity | discriminate]].
  destruct (py_str_operand access) as [access_str |];
    [| left; split; [reflexivity | discriminate]].
  cbn [oauth_calls storage].
  destruct (negb (status_code (oauth_server O _ (AccessTokenInfo access_str))
                  =? 200));
    [left; split; [reflexivity | discriminate] |].
  destruct (response_json _) as [portal_data |];
    [| left; split; [reflexivity | discriminate]].
  destruct (py_getitem portal_data "hub_id") as [portal_id |];
    [| left; split; [reflexivity | discriminate]].
  destruct (py_get token_data "refresh_token" JNull) as [new_refresh |];
    [| left; split; [reflexivity | discriminate]].
  destruct (py_getitem token_data "expires_in") as [ei |];
    [| left; split; [reflexivity | discriminate]].
  destruct (timedelta ei) as [d |];
    [| left; split; [reflexivity | discriminate]].
  destruct (datetime_add _ d) as [expiry |];
    [| left; split; [reflexivity | discriminate]].
  destruct (py_get token_data "scope" _) as [new_scope |];
    [| left; split; [reflexivity | discriminate]].
  destruct (py_hash portal_id) as [k |] eqn:Hk;
    [| left; split; [reflexivity | discriminate]].
  right. exists portal_id, access, k.
  exists {| access_token := access; refresh_token := new_refresh;
            expires_at := expiry; scope := new_scope |}.
  split; [reflexivity |]. split; [exact Hk |]. split; reflexivity.
Qed.

(** X16: in every outcome of the callback other than the answer "OAuth
    successful", the error answers and the exceptions alike, the token
    store is as it was. *)
Theorem callback_stores_only_on_success
    (code : option string) (s : oauth_state) :
  (forall p a, fst (oauth_callback O code s) <> Ok (OAuthSuccessful p a)) ->
  storage (snd (oauth_callback O code s)) = storage s.
Proof.
  intros Hno.
  destruct (callback_store_cases code s)
    as [[Hsame _] | (p & a & k & t & Hans & _)]; [exact Hsame |].
  exfalso. exact (Hno p a Hans).
Qed.

(** X17: after a successful callback the record stored under the key of
    the reported [hub_id] carries the reported access token, and what
    was stored under any other key is as it was. *)
Theorem callback_success_is_readable
    (code : option string) (s : oauth_state) (p a : json) :
  fst (oauth_callback O code s) = Ok (OAuthSuccessful p a) ->
  exists k t,
    py_hash p = Ok k /\
    dict_get k (storage (snd (oauth_callback O code s))) = Some t /\
    access_token t = a /\
    forall k', k' <> k ->
      dict_get k' (storage (snd (oauth_callback O code s))) =
        dict_get k' (storage s).
Proof.
  intros Hans.
  destruct (callback_store_cases code s)
    as [[_ Hno] | (p' & a' & k & t & Hans' & Hk & Ha & Hst)].
  - exfalso. exact (Hno p a Hans).
  - rewrite Hans in Hans'. injection Hans' as <- <-.
    exists k, t. split; [exact Hk |]. rewrite Hst.
    split; [apply dict_get_set |]. split; [exact Ha |].
    intros k' Hne. apply dict_get_set_ne. congruence.
Qed.

Lemma callback_exchange_rejected (code : string) (s : oauth_state) :
  code <> EmptyString ->
  status_code (oauth_server O (oauth_calls s) (CodeExchange code)) <> 200 ->
  oauth_callback O (Some code) s =
    (Ok (OAuthError "Failed to exchange code for tokens" 400),
     oauth_sent s [CodeExchange code]).
Proof.
  intros Hcode Hst. unfold oauth_callback.
  apply String.eqb_neq in Hcode. rewrite Hcode. unfold_oauth.
  destruct (Z.eqb_spec
              (status_code (oauth_server O (oauth_calls s) (CodeExchange code)))
              200); [contradiction | reflexivity].
Qed.

(** X18: the callback answers 400 without any request when the code is
    missing or empty; 400 after the one exchange request when the token
    endpoint refuses the code; and 400 after the exchange and the
    introspection request when the introspection fails by status; the
    token store is untouched in the three cases. *)
Theorem callback_rejections
    (code : string) (s : oauth_state) (fields : list (string * json))
    (a : string) :
  (oauth_callback O None s =
     (Ok (OAuthError "No authorization code provided" 400), s) /\
   oauth_callback O (Some EmptyString) s =
     (Ok (OAuthError "No authorization code provided" 400), s)) /\
  (code <> EmptyString ->
   status_code (oauth_server O (oauth_calls s) (CodeExchange code)) <> 200 ->
   oauth_callback O (Some code) s =
     (Ok (OAuthError "Failed to exchange code for tokens" 400),
      oauth_sent s [CodeExchange code])) /\
  (code <> EmptyString ->
   oauth_server O (oauth_calls s) (CodeExchange code) =
     ok_response (JObj fields) ->
   dict_lookup "access_token" fields = Some (JStr a) ->
   status_code
     (oauth_server O (oauth_calls s ++ [CodeExchange code])
        (AccessTokenInfo a)) <> 200 ->
   oauth_callback O (Some code) s =
     (Ok (OAuthError "Failed to get portal information" 400),
      oauth_sent s [CodeExchange code; AccessTokenInfo a])).
Proof.
  split; [split; reflexivity |].
  split; [apply callback_exchange_rejected |].
  intros Hcode Hreply Ha Hst. unfold oauth_callback.
  apply String.eqb_neq in Hcode. rewrite Hcode. unfold_oauth.
  rewrite Hreply. reduce_reply. unfold py_getitem. rewrite Ha.
  cbn [py_str_operand oauth_calls storage].
  destruct (Z.eqb_spec
              (status_code
                 (oauth_server O (oauth_calls s ++ [CodeExchange code])
                    (AccessTokenInfo a))) 200); [contradiction |].
  cbn. unfold oauth_sent. rewrite <- app_assoc. reflexivity.
Qed.

(** X19: when the exchange reply carries a string [access_token] and a
    non-negative [expires_in], and the introspection names a hashable
    [hub_id], the callback stores, under the key of that [hub_id], the
    access token, the expiry [now + expires_in], and as refresh token
    the reply's [refresh_token] or [None] when it has none; it answers
    "OAuth successful" after exactly the two requests. *)
Theorem callback_acquires
    (code : string) (s : oauth_state) (fields info : list (string * json))
    (a : string) (n : Z) (hub : json) (k : portal_key) :
  code <> EmptyString ->
  oauth_server O (oauth_calls s) (CodeExchange code) =
    ok_response (JObj fields) ->
  dict_lookup "access_token" fields = Some (JStr a) ->
  dict_lookup "expires_in" fields = Some (JNum n) ->
  oauth_server O (oauth_calls s ++ [CodeExchange code]) (AccessTokenInfo a) =
    ok_response (JObj info) ->
  dict_lookup "hub_id" info = Some hub ->
  py_hash hub = Ok k ->
  0 <= n ->
  0 <= oauth_clock O (oauth_calls s ++ [CodeExchange code; AccessTokenInfo a]) ->
  oauth_clock O (oauth_calls s ++ [CodeExchange code; AccessTokenInfo a]) + n
    < datetime_max ->
  oauth_callback O (Some code) s =
    (Ok (OAuthSuccessful hub (JStr a)),
     {| storage :=
          dict_set k
            {| access_token := JStr a;
               refresh_token :=
                 default JNull (dict_lookup "refresh_token" fields);
               expires_at :=
                 oauth_clock O
                   (oauth_calls s ++ [CodeExchange code; AccessTokenInfo a])
                 + n;
               scope :=
                 default (JStr EmptyString) (dict_lookup "scope" fields) |}
            (storage s);
        oauth_calls :=
          oauth_calls s ++ [CodeExchange code; AccessTokenInfo a] |}).
Proof.
  intros Hcode Hreply Ha He Hinfo Hhub Hk Hn Hnow Hmax. unfold oauth_callback.
  apply String.eqb_neq in Hcode. rewrite Hcode. unfold_oauth.
  rewrite Hreply. reduce_reply. unfold py_getitem, py_get. rewrite Ha, He.
  cbn [py_str_operand oauth_calls storage].
  rewrite Hinfo. reduce_reply. rewrite Hhub.
  rewrite timedelta_in_range by lia.
  rewrite <- app_assoc. cbn [app oauth_calls storage].
  unfold datetime_add.
  rewrite (proj2 (Z.leb_le _ _)), (proj2 (Z.ltb_lt _ _)) by lia.
  cbn [andb]. rewrite Hk. reflexivity.
Qed.

End CallbackProperties.

(** X20: a record that the callback stores under a numeric [hub_id] is
    outside the part of the store under string keys, the only part the
    endpoint reads: the endpoint answers every request as it did before
    the callback.  Under a string [hub_id] the record is the one that
    [get_hubspot_access_token] returns for that portal until it expires. *)
Theorem callback_key_decides_visibility
    (O : oauth_env) (code : option string) (s : oauth_state) (p a : json) :
  fst (oauth_callback O code s) = Ok (OAuthSuccessful p a) ->
  (forall n, p = JNum n ->
     by_str (storage (snd (oauth_callback O code s))) = by_str (storage s)) /\
  (forall portal_id, p = JStr portal_id ->
     exists t,
       by_str (storage (snd (oauth_callback O code s))) =
         <[portal_id := t]> (by_str (storage s)) /\
       forall (E : env) (h : list request),
         clock E h <= expires_at t ->
         get_hubspot_access_token E portal_id
           {| token_storage := by_str (storage (snd (oauth_callback O code s)));
              calls := h |} =
         (Ok a,
          {| token_storage := by_str (storage (snd (oauth_callback O code s)));
             calls := h |})).
Proof.
  intros Hans.
  destruct (callback_store_cases O code s)
    as [[_ Hno] | (p' & a' & k & t & Hans' & Hk & Ha & Hst)].
  - exfalso. exact (Hno p a Hans).
  - rewrite Hans in Hans'. injection Hans' as <- <-. split.
    + intros n ->. injection Hk as <-. rewrite Hst. reflexivity.
    + intros portal_id ->. injection Hk as <-. exists t. rewrite Hst.
      split; [reflexivity |]. intros E h Hnow. rewrite <- Ha.
      apply unexpired_resolution; [apply lookup_insert_eq | exact Hnow].
Qed.

(** X16 on a token endpoint that refuses the code. *)
Lemma callback_refused_witness :
  storage (snd (oauth_callback refusing_oauth_env (Some "c0de")
                  fresh_oauth_state)) = empty_dict.
Proof.
  apply (callback_stores_only_on_success refusing_oauth_env (Some "c0de")
           fresh_oauth_state).
  intros p a H. vm_compute in H. discriminate.
Defined.

(** X17 on a successful callback for the portal 42. *)
Lemma callback_readable_witness :
  exists k t,
    py_hash (JNum 42) = Ok k /\
    dict_get k
      (storage (snd (oauth_callback (oauth_env_for (JNum 42)) (Some "c0de")
                       fresh_oauth_state))) = Some t /\
    access_token t = JStr "a1" /\
    forall k', k' <> k ->
      dict_get k'
        (storage (snd (oauth_callback (oauth_env_for (JNum 42)) (Some "c0de")
                         fresh_oauth_state))) =
      dict_get k' (storage fresh_oauth_state).
Proof.
  apply (callback_success_is_readable (oauth_env_for (JNum 42)) (Some "c0de")
           fresh_oauth_state (JNum 42) (JStr "a1")).
  reflexivity.
Defined.

(** X18 on a refused code and on a refused introspection. *)
Lemma callback_rejected_witness :
  oauth_callback refusing_oauth_env (Some "c0de") fresh_oauth_state =
    (Ok (OAuthError "Failed to exchange code for tokens" 400),
     oauth_sent fresh_oauth_state [CodeExchange "c0de"]) /\
  oauth_callback introspection_failing_env (Some "c0de") fresh_oauth_state =
    (Ok (OAuthError "Failed to get portal information" 400),
     oauth_sent fresh_oauth_state [CodeExchange "c0de"; AccessTokenInfo "a1"]).
Proof.
  split.
  - apply (callback_rejections refusing_oauth_env "c0de" fresh_oauth_state
             [] EmptyString).
    + discriminate.
    + vm_compute. discriminate.
  - apply (callback_rejections introspection_failing_env "c0de"
             fresh_oauth_state
             [("access_token", JStr "a1"); ("expires_in", JNum 1800)] "a1").
    + discriminate.
    + reflexivity.
    + reflexivity.
    + vm_compute. discriminate.
Defined.

(** X19 on a successful callback for the portal 42. *)
Lemma callback_acquired_witness :
  oauth_callback (oauth_env_for (JNum 42)) (Some "c0de") fresh_oauth_state =
    (Ok (OAuthSuccessful (JNum 42) (JStr "a1")),
     {| storage := dict_set (KeyInt 42) acquired_record empty_dict;
        oauth_calls := [CodeExchange "c0de"; AccessTokenInfo "a1"] |}).
Proof.
  apply (callback_acquires (oauth_env_for (JNum 42)) "c0de" fresh_oauth_state
           [("access_token", JStr "a1"); ("expires_in", JNum 1800)]
           [("hub_id", JNum 42)] "a1" 1800 (JNum 42) (KeyInt 42)).
  all: try reflexivity.
  all: try discriminate.
  all: vm_compute; discriminate.
Defined.

(** X20 on the portal 42 reported as a number, and as a string. *)
Lemma callback_visibility_witness :
  by_str (storage (snd (oauth_callback (oauth_env_for (JNum 42)) (Some "c0de")
                          fresh_oauth_state))) = ∅ /\
  get_hubspot_access_token crm_env "42"
    {| token_storage :=
         by_str (storage (snd (oauth_callback (oauth_env_for (JStr "42"))
                                 (Some "c0de") fresh_oauth_state)));
       calls := [] |} =
    (Ok (JStr "a1"),
     {| token_storage :=
          by_str (storage (snd (oauth_callback (oauth_env_for (JStr "42"))
                                  (Some "c0de") fresh_oauth_state)));
        calls := [] |}).
Proof.
  split.
  - apply (callback_key_decides_visibility (oauth_env_for (JNum 42))
             (Some "c0de") fresh_oauth_state (JNum 42) (JStr "a1") eq_refl
             ) with (n := 42).
    reflexivity.
  - destruct (callback_key_decides_visibility (oauth_env_for (JStr "42"))
                (Some "c0de") fresh_oauth_state (JStr "42") (JStr "a1")
                eq_refl) as [_ Hstr].
    destruct (Hstr "42" eq_refl) as (t & Hst & Hres).
    apply Hres.
    assert (expires_at t = now0 + 1800) as ->.
    { assert (<["42" := t]> (by_str (storage fresh_oauth_state)) !! "42" =
              Some acquired_record) as Hl by (rewrite <- Hst; reflexivity).
      rewrite lookup_insert_eq in Hl. injection Hl as ->. reflexivity. }
    vm_compute. discriminate.
Defined.
